(** * PRODUCTIFY backend: the product controller

    A shallow embedding of the six request handlers of the product
    controller (getAllProducts, getMyProducts, getProductById,
    createProduct, updateProduct, deleteProduct) and the properties the
    specification states about them.

    The handlers are async Express handlers.  Each one is embedded as a
    function from a request and a world (the database state together with
    the log of persistence calls made so far) to the response it sends and
    the world it leaves.  The persistence module [../db/queries] is an
    interface here: the handlers are written once, against any
    implementation of it. *)

From Stdlib Require Import NArith ZArith String Ascii Lia.
From stdpp Require Import gmap list fin_maps infinite.

Local Open Scope Z_scope.

(** ** JavaScript values *)

(** A JavaScript string is a sequence of UTF-16 code units. *)
Abbreviation jstring := (list N).

(** The code units of a source literal (the literals of the controller are
    ASCII). *)
Definition lit (s : string) : jstring :=
  map N_of_ascii (list_ascii_of_string s).

(** The values a parsed request body is made of, and [undefined].  An object
    is the finite map from its own property names to their values. *)
#[warnings="-register-all"]
Inductive jsval : Type :=
| VUndefined
| VNull
| VBool (b : bool)
| VNumber (lexeme : string)
| VString (s : jstring)
| VArray (elements : list jsval)
| VObject (props : gmap jstring jsval).

(** [v === undefined] *)
Definition is_undefined (v : jsval) : bool :=
  match v with VUndefined => true | _ => false end.

(** [typeof v], as the name JavaScript gives the type. *)
Definition typeof (v : jsval) : string :=
  match v with
  | VUndefined => "undefined"
  | VNull => "object"
  | VBool _ => "boolean"
  | VNumber _ => "number"
  | VString _ => "string"
  | VArray _ => "object"
  | VObject _ => "object"
  end.

(** [v[k]] for [v] not null or undefined, and [k] one of the names the
    controller reads ([title], [description], [imageUrl]): an object gives
    its own property, and neither a primitive, an array nor
    [Object.prototype] has a property of such a name. *)
Definition get_prop (k : jstring) (v : jsval) : jsval :=
  match v with
  | VObject props => default VUndefined (props !! k)
  | _ => VUndefined
  end.

(** The object [v] with its own property [k] defined as [x] (as a parser
    of the body defines it); other values are left as they are. *)
Definition set_prop (k : jstring) (x : jsval) (v : jsval) : jsval :=
  match v with
  | VObject props => VObject (<[k := x]> props)
  | _ => v
  end.

(** Destructuring [const { ... } = v] raises a TypeError on [null] and
    [undefined]. *)
Definition nullish (v : jsval) : bool :=
  match v with VUndefined | VNull => true | _ => false end.

(** *** String.prototype.trim *)

(** WhiteSpace and LineTerminator code points of ECMA-262: TAB, LF, VT, FF,
    CR, SP, NBSP, the other space separators (Zs), LS, PS and ZWNBSP.  All of
    them are single code units. *)
Definition is_white_space (c : N) : bool :=
  ((c =? 9) || (c =? 10) || (c =? 11) || (c =? 12) || (c =? 13) ||
   (c =? 32) || (c =? 160) || (c =? 5760) ||
   ((8192 <=? c) && (c <=? 8202)) ||
   (c =? 8232) || (c =? 8233) || (c =? 8239) || (c =? 8287) ||
   (c =? 12288) || (c =? 65279))%N.

Fixpoint trimStart (s : jstring) : jstring :=
  match s with
  | c :: s' => if is_white_space c then trimStart s' else s
  | [] => []
  end.

Definition trimEnd (s : jstring) : jstring := rev (trimStart (rev s)).

Definition trim (s : jstring) : jstring := trimEnd (trimStart s).

(** [const isNonEmptyString = (v: unknown) =>
      typeof v === 'string' && v.trim().length > 0] *)
Definition isNonEmptyString (v : jsval) : bool :=
  String.eqb (typeof v) "string" &&
  match v with
  | VString s => 0 <? Z.of_nat (length (trim s))
  | _ => false
  end.

(** ** Products and the persistence interface *)

(** Modelled from the spec: the Product record (the database schema is not
    part of the controller's file); its five fields are those of the spec's
    data model. *)
Module Product.
Record t : Type := mk {
  id : jstring;
  title : jstring;
  description : jstring;
  imageUrl : jstring;
  userId : jstring
}.
End Product.

(** The argument of [queries.createProduct]: the object literal
    [{ title, description, imageUrl, userId }].  The three body fields are
    passed as they were read from the body. *)
Module NewProduct.
Record t : Type := mk {
  title : jsval;
  description : jsval;
  imageUrl : jsval;
  userId : jstring
}.
End NewProduct.

(** The [updates] object of updateProduct,
    [Partial<{ title: string; description: string; imageUrl: string }>]:
    a key is either absent or holds the value assigned to it. *)
Module Updates.
Record t : Type := mk {
  title : option jsval;
  description : option jsval;
  imageUrl : option jsval
}.

Definition is_Some_dec {A} (o : option A) : bool :=
  match o with Some _ => true | None => false end.

(** [{}] *)
Definition empty : t := mk None None None.

(** [Object.keys(updates)] *)
Definition keys (u : t) : list jstring :=
  (if is_Some_dec (title u) then [lit "title"] else []) ++
  (if is_Some_dec (description u) then [lit "description"] else []) ++
  (if is_Some_dec (imageUrl u) then [lit "imageUrl"] else []).
End Updates.

(** What an awaited call comes to: a value, or a raised error. *)
Inductive outcome (A : Type) : Type :=
| Returned (a : A)
| Threw.
Arguments Returned {A} a.
Arguments Threw {A}.

(** The persistence module [../db/queries], as the controller uses it: six
    functions over a database state [DB].  Each gives its outcome and the
    state it leaves.  An id is the value of
    [Array.isArray(id) ? id[0] : id]: a string, or [None] for [undefined].
    A lookup that finds nothing returns [None] (null). *)
Module queries.
Record t (DB : Type) : Type := mk {
  getAllProducts : DB -> outcome (list Product.t) * DB;
  getProductsByUserId : jstring -> DB -> outcome (list Product.t) * DB;
  getProductById : option jstring -> DB -> outcome (option Product.t) * DB;
  createProduct : NewProduct.t -> DB -> outcome Product.t * DB;
  updateProduct :
    option jstring -> Updates.t -> DB -> outcome (option Product.t) * DB;
  deleteProduct : option jstring -> DB -> outcome (option Product.t) * DB
}.
Arguments getAllProducts {DB}.
Arguments getProductsByUserId {DB}.
Arguments getProductById {DB}.
Arguments createProduct {DB}.
Arguments updateProduct {DB}.
Arguments deleteProduct {DB}.
End queries.

(** The persistence calls a handler makes, in the order it makes them. *)
Inductive Call : Type :=
| GetAllProducts
| GetProductsByUserId (userId : jstring)
| GetProductById (id : option jstring)
| CreateProduct (data : NewProduct.t)
| UpdateProduct (id : option jstring) (data : Updates.t)
| DeleteProduct (id : option jstring).

(** The calls that write to the database. *)
Definition mutating (c : Call) : bool :=
  match c with
  | CreateProduct _ | UpdateProduct _ _ | DeleteProduct _ => true
  | GetAllProducts | GetProductsByUserId _ | GetProductById _ => false
  end.

(** ** Requests and responses *)

(** [req.params.id]: absent, a string, or a sequence of strings. *)
Inductive PathParam : Type :=
| PAbsent
| PString (s : jstring)
| PArray (l : list jstring).

(** What a handler reads of its request: [getAuth(req).userId]
    (a string or null), [req.params.id] and [req.body]. *)
Record Request : Type := mkRequest {
  auth_userId : option jstring;
  params_id : PathParam;
  body : jsval
}.

(** The JSON bodies the controller sends. *)
Inductive Json : Type :=
| ErrorBody (error : string)            (* { error: ... } *)
| MessageBody (message : string)        (* { message: ... } *)
| ProductBody (product : Product.t)
| ProductsBody (products : list Product.t)
| NullBody.                             (* res.json of null or undefined *)

(** [res.status(s).json(b)] *)
Record Response : Type := mkResponse {
  status : Z;
  json : Json
}.

(** [Array.isArray(id) ? id[0] : id] *)
Definition rawId (id : PathParam) : option jstring :=
  match id with
  | PArray l => head l
  | PString s => Some s
  | PAbsent => None
  end.

(** [!s] for [s] a string, null or undefined: the empty string is falsy. *)
Definition falsy (s : option jstring) : bool :=
  match s with
  | None | Some [] => true
  | Some (_ :: _) => false
  end.

(** [res.json(product)] for a product that may be null. *)
Definition product_json (p : option Product.t) : Json :=
  match p with
  | Some p => ProductBody p
  | None => NullBody
  end.

(** ** The handler monad *)

(** The world a handler runs in: the database, and the log of the
    persistence calls made so far. *)
Record World (DB : Type) : Type := mkWorld {
  db : DB;
  calls : list Call
}.
Arguments mkWorld {DB}.
Arguments db {DB}.
Arguments calls {DB}.

(** A computation inside a [try] block: it changes the world and either
    comes to a value or raises. *)
Definition M (DB A : Type) : Type := World DB -> outcome A * World DB.

#[global] Instance M_ret {DB} : MRet (M DB) :=
  fun A (a : A) w => (Returned a, w).

#[global] Instance M_bind {DB} : MBind (M DB) :=
  fun A B (k : A -> M DB B) (m : M DB A) w =>
    match m w with
    | (Returned a, w') => k a w'
    | (Threw, w') => (Threw, w')
    end.

(** [throw new TypeError(...)] *)
Definition throw {DB A} : M DB A := fun w => (Threw, w).

(** [await q(...)]: run the persistence call [q] on the database and log it
    as [c]. *)
Definition await {DB A} (c : Call) (q : DB -> outcome A * DB) : M DB A :=
  fun w =>
    let (r, d) := q (db w) in
    (r, mkWorld d (calls w ++ [c])).

(** [try { block } catch (error) { console.error(...); on_error }]: every
    handler is one such statement, and sends exactly one response. *)
Definition try_catch {DB A} (block : M DB A) (on_error : A)
  : World DB -> A * World DB :=
  fun w =>
    match block w with
    | (Returned a, w') => (a, w')
    | (Threw, w') => (on_error, w')
    end.

(** [const { title, description, imageUrl } = req.body] *)
Definition body_fields {DB} (b : jsval) : M DB (jsval * jsval * jsval) :=
  if nullish b then throw
  else mret (get_prop (lit "title") b,
             get_prop (lit "description") b,
             get_prop (lit "imageUrl") b).

(** [res.status(s).json({ error: msg })] *)
Definition error (s : Z) (msg : string) : Response :=
  mkResponse s (ErrorBody msg).

(** ** The controller *)

Section Controller.

Context {DB : Type} (Q : queries.t DB).

(** Get all products (public) *)
Definition getAllProducts (req : Request) : World DB -> Response * World DB :=
  try_catch
    (products ← await GetAllProducts (queries.getAllProducts Q);
     mret (mkResponse 200 (ProductsBody products)))
    (error 500 "Failed to get products").

(** Get products by current user (protected) *)
Definition getMyProducts (req : Request) : World DB -> Response * World DB :=
  try_catch
    (match auth_userId req with
     | None | Some [] => mret (error 401 "Unauthorized")
     | Some userId =>
         products ← await (GetProductsByUserId userId)
                          (queries.getProductsByUserId Q userId);
         mret (mkResponse 200 (ProductsBody products))
     end)
    (error 500 "Failed to get user products").

(** Get single product by ID (public) *)
Definition getProductById (req : Request) : World DB -> Response * World DB :=
  try_catch
    (let id := params_id req in
     let rawId := rawId id in
     if falsy rawId then mret (error 400 "Product id is required")
     else
       product ← await (GetProductById rawId) (queries.getProductById Q rawId);
       match product with
       | None => mret (error 404 "Product not found")
       | Some product => mret (mkResponse 200 (ProductBody product))
       end)
    (error 500 "Failed to get product").

(** Create product (protected) *)
Definition createProduct (req : Request) : World DB -> Response * World DB :=
  try_catch
    (match auth_userId req with
     | None | Some [] => mret (error 401 "Unauthorized")
     | Some userId =>
         '(title, description, imageUrl) ← body_fields (body req);
         if negb (isNonEmptyString title) ||
            negb (isNonEmptyString description) ||
            negb (isNonEmptyString imageUrl)
         then mret (error 400 "Title, description, and imageUrl are required")
         else
           let data := NewProduct.mk title description imageUrl userId in
           product ← await (CreateProduct data) (queries.createProduct Q data);
           mret (mkResponse 201 (ProductBody product))
     end)
    (error 500 "Failed to create product").

(** Update product (protected - owner only) *)
Definition updateProduct (req : Request) : World DB -> Response * World DB :=
  try_catch
    (match auth_userId req with
     | None | Some [] => mret (error 401 "Unauthorized")
     | Some userId =>
         let id := params_id req in
         '(title, description, imageUrl) ← body_fields (body req);
         let updates := Updates.empty in
         if negb (is_undefined title) && negb (isNonEmptyString title)
         then mret (error 400 "Invalid title") else
         let updates :=
           if negb (is_undefined title)
           then Updates.mk (Some title) (Updates.description updates)
                           (Updates.imageUrl updates)
           else updates in
         if negb (is_undefined description) &&
            negb (isNonEmptyString description)
         then mret (error 400 "Invalid description") else
         let updates :=
           if negb (is_undefined description)
           then Updates.mk (Updates.title updates) (Some description)
                           (Updates.imageUrl updates)
           else updates in
         if negb (is_undefined imageUrl) && negb (isNonEmptyString imageUrl)
         then mret (error 400 "Invalid imageUrl") else
         let updates :=
           if negb (is_undefined imageUrl)
           then Updates.mk (Updates.title updates)
                           (Updates.description updates) (Some imageUrl)
           else updates in
         if (length (Updates.keys updates) =? 0)%nat
         then mret (error 400 "At least one field is required") else
         (* Check if product exists and belongs to user *)
         existingProduct ← await (GetProductById (rawId id))
                                 (queries.getProductById Q (rawId id));
         match existingProduct with
         | None => mret (error 404 "Product not found")
         | Some existingProduct =>
             if bool_decide (Product.userId existingProduct ≠ userId)
             then mret (error 403 "You can only update your own products")
             else
               product ← await (UpdateProduct (rawId id) updates)
                               (queries.updateProduct Q (rawId id) updates);
               mret (mkResponse 200 (product_json product))
         end
     end)
    (error 500 "Failed to update product").

(** Delete product (protected - owner only) *)
Definition deleteProduct (req : Request) : World DB -> Response * World DB :=
  try_catch
    (match auth_userId req with
     | None | Some [] => mret (error 401 "Unauthorized")
     | Some userId =>
         let id := params_id req in
         (* Check if product exists and belongs to user *)
         existingProduct ← await (GetProductById (rawId id))
                                 (queries.getProductById Q (rawId id));
         match existingProduct with
         | None => mret (error 404 "Product not found")
         | Some existingProduct =>
             if bool_decide (Product.userId existingProduct ≠ userId)
             then mret (error 403 "You can only delete your own products")
             else
               _ ← await (DeleteProduct (rawId id))
                         (queries.deleteProduct Q (rawId id));
               mret (mkResponse 200 (MessageBody "Product deleted successfully"))
         end
     end)
    (error 500 "Failed to delete product").

End Controller.

(** ** Requests with one part replaced *)

Definition with_body (b : jsval) (req : Request) : Request :=
  mkRequest (auth_userId req) (params_id req) b.

Definition with_id (id : PathParam) (req : Request) : Request :=
  mkRequest (auth_userId req) id (body req).

(** ** Vocabulary of the specification *)

(** A body field that is present ([!== undefined]) and is not a string that
    is non-empty after trimming. *)
Definition present_invalid (v : jsval) : bool :=
  negb (is_undefined v) && negb (isNonEmptyString v).

(** An id that is missing or blank: undefined, the empty string, or white
    space only. *)
Definition blank_id (id : option jstring) : bool :=
  match id with
  | None => true
  | Some s => forallb is_white_space s
  end.

(** A supplied field, as an entry of a partial update. *)
Definition entry (v : jsval) : option jsval :=
  if is_undefined v then None else Some v.

(** The fields of a body that are supplied, as a partial update. *)
Definition supplied (b : jsval) : Updates.t :=
  Updates.mk (entry (get_prop (lit "title") b))
             (entry (get_prop (lit "description") b))
             (entry (get_prop (lit "imageUrl") b)).

(** A body updateProduct accepts: an object (not null or undefined) in which
    no supplied field is invalid and at least one field is supplied. *)
Definition update_body_ok (b : jsval) : bool :=
  negb (nullish b) &&
  negb (present_invalid (get_prop (lit "title") b)) &&
  negb (present_invalid (get_prop (lit "description") b)) &&
  negb (present_invalid (get_prop (lit "imageUrl") b)) &&
  negb (is_undefined (get_prop (lit "title") b) &&
        is_undefined (get_prop (lit "description") b) &&
        is_undefined (get_prop (lit "imageUrl") b)).

(** A body createProduct accepts. *)
Definition create_body_ok (b : jsval) : bool :=
  negb (nullish b) &&
  isNonEmptyString (get_prop (lit "title") b) &&
  isNonEmptyString (get_prop (lit "description") b) &&
  isNonEmptyString (get_prop (lit "imageUrl") b).

(** The field [new] of an updated product, given the update [o] for it and
    its value [old] before: the supplied string, or the prior value. *)
Definition field_after (o : option jsval) (old new : jstring) : Prop :=
  match o with
  | Some v => v = VString new
  | None => new = old
  end.

(** [p'] is [p] with the partial update [data] applied: [id] and [userId]
    are no part of an update. *)
Definition patched (data : Updates.t) (p p' : Product.t) : Prop :=
  Product.id p' = Product.id p /\
  Product.userId p' = Product.userId p /\
  field_after (Updates.title data) (Product.title p) (Product.title p') /\
  field_after (Updates.description data)
              (Product.description p) (Product.description p') /\
  field_after (Updates.imageUrl data)
              (Product.imageUrl p) (Product.imageUrl p').

(** *** The contract the controller relies on

    Modelled from the spec: what the persistence layer ([../db/queries], not
    part of the controller's file) promises.  The spec takes it as correct
    and as a black box: createProduct makes a Product of the fields it is
    given, updateProduct applies a partial update to the record of that id
    and leaves the other fields, deleteProduct removes the record, and a
    lookup reads without writing. *)

Definition creates_as_given {DB} (Q : queries.t DB) : Prop :=
  forall data d p d',
    queries.createProduct Q data d = (Returned p, d') ->
    NewProduct.title data = VString (Product.title p) /\
    NewProduct.description data = VString (Product.description p) /\
    NewProduct.imageUrl data = VString (Product.imageUrl p) /\
    NewProduct.userId data = Product.userId p.

Definition updates_as_given {DB} (Q : queries.t DB) : Prop :=
  forall id data d p' d',
    queries.updateProduct Q id data d = (Returned (Some p'), d') ->
    exists p,
      queries.getProductById Q id d = (Returned (Some p), d) /\
      patched data p p' /\
      queries.getProductById Q id d' = (Returned (Some p'), d').

Definition lookup_reads {DB} (Q : queries.t DB) : Prop :=
  forall id d r d',
    queries.getProductById Q id d = (Returned r, d') -> d' = d.

Definition delete_removes {DB} (Q : queries.t DB) : Prop :=
  forall id d r d',
    queries.deleteProduct Q id d = (Returned r, d') ->
    queries.getProductById Q id d' = (Returned None, d').

(** ** An in-memory persistence layer *)

(** Modelled from the spec: an implementation of the persistence layer
    ([../db/queries] and the database behind it are not part of the
    controller's file).  The products table is a finite map from the primary
    key [id] to the record; the columns are text, so a value that is not a
    string is refused with an error. *)
Module Mem.

Abbreviation Store := (gmap jstring Product.t).

Definition as_text (v : jsval) : option jstring :=
  match v with VString s => Some s | _ => None end.

(** The value of a column after a partial update. *)
Definition column (o : option jsval) (old : jstring) : option jstring :=
  match o with
  | Some v => as_text v
  | None => Some old
  end.

Definition patch (data : Updates.t) (p : Product.t) : option Product.t :=
  t ← column (Updates.title data) (Product.title p);
  d ← column (Updates.description data) (Product.description p);
  i ← column (Updates.imageUrl data) (Product.imageUrl p);
  Some (Product.mk (Product.id p) t d i (Product.userId p)).

Definition find (id : option jstring) (s : Store) : option Product.t :=
  i ← id; s !! i.

Definition getAllProducts (s : Store) : outcome (list Product.t) * Store :=
  (Returned (map snd (map_to_list s)), s).

Definition getProductsByUserId (userId : jstring) (s : Store)
  : outcome (list Product.t) * Store :=
  (Returned (filter (fun p => Product.userId p = userId)
                    (map snd (map_to_list s))), s).

Definition getProductById (id : option jstring) (s : Store)
  : outcome (option Product.t) * Store :=
  (Returned (find id s), s).

Definition createProduct (data : NewProduct.t) (s : Store)
  : outcome Product.t * Store :=
  match as_text (NewProduct.title data),
        as_text (NewProduct.description data),
        as_text (NewProduct.imageUrl data) with
  | Some t, Some d, Some i =>
      let id := fresh (dom s) in
      let p := Product.mk id t d i (NewProduct.userId data) in
      (Returned p, <[id := p]> s)
  | _, _, _ => (Threw, s)
  end.

Definition updateProduct (id : option jstring) (data : Updates.t) (s : Store)
  : outcome (option Product.t) * Store :=
  match id, find id s with
  | Some i, Some p =>
      match patch data p with
      | Some p' => (Returned (Some p'), <[i := p']> s)
      | None => (Threw, s)
      end
  | _, _ => (Returned None, s)
  end.

Definition deleteProduct (id : option jstring) (s : Store)
  : outcome (option Product.t) * Store :=
  match id with
  | Some i => (Returned (s !! i), delete i s)
  | None => (Returned None, s)
  end.

Definition Q : queries.t Store :=
  queries.mk Store getAllProducts getProductsByUserId getProductById
             createProduct updateProduct deleteProduct.

End Mem.

(** ** Sample data *)

(** The string value of a literal, and an object from its properties in the
    order they are written: of two properties of one name the later one
    stays. *)
Definition str (s : string) : jsval := VString (lit s).

Definition prop (k : string) (v : jsval) : jstring * jsval := (lit k, v).

Definition object (l : list (jstring * jsval)) : jsval :=
  VObject (list_to_map (rev l)).

Definition alice : jstring := lit "user_alice".
Definition bob : jstring := lit "user_bob".

(** A product of alice's, and a store that holds it. *)
Definition lamp : Product.t :=
  Product.mk (lit "p1") (lit "Lamp") (lit "A desk lamp")
             (lit "http://x/lamp.png") alice.

Definition shop : World Mem.Store := mkWorld {[ lit "p1" := lamp ]} [].

(** A request of [caller], for the product [id], with the body [b]. *)
Definition request (caller : jstring) (id : string) (b : jsval) : Request :=
  mkRequest (Some caller) (PString (lit id)) b.

(** ** Runs and their calls *)

(** The persistence calls made between the world [w] and the world [w'] a
    handler leaves. *)
Definition made {DB} (w w' : World DB) : list Call :=
  drop (length (calls w)) (calls w').

(** A body that is present: not null and not undefined. *)
Definition has_body (req : Request) : bool := negb (nullish (body req)).

(** Modelled from the spec: getProductsByUserId (in [../db/queries], not
    part of the controller's file) fetches the Products whose [userId] is
    the one asked for. *)
Definition lists_by_owner {DB} (Q : queries.t DB) : Prop :=
  forall u d ps d',
    queries.getProductsByUserId Q u d = (Returned ps, d') ->
    Forall (fun p => Product.userId p = u) ps.

(** A persistence layer whose every call raises: the database is down. *)
Module Down.

Definition Q : queries.t unit :=
  queries.mk unit
    (fun d => (Threw, d)) (fun _ d => (Threw, d)) (fun _ d => (Threw, d))
    (fun _ d => (Threw, d)) (fun _ _ d => (Threw, d)) (fun _ d => (Threw, d)).

Definition world : World unit := mkWorld tt [].

End Down.

(** The in-memory layer with its writes refused: reads answer, every write
    raises. *)
Module ReadOnly.

Definition Q : queries.t Mem.Store :=
  queries.mk Mem.Store Mem.getAllProducts Mem.getProductsByUserId
             Mem.getProductById
             (fun _ d => (Threw, d)) (fun _ _ d => (Threw, d))
             (fun _ d => (Threw, d)).

End ReadOnly.

(** Unfold a handler down to the persistence calls it makes. *)
Ltac run :=
  unfold getAllProducts, getMyProducts, getProductById, createProduct,
    updateProduct, deleteProduct, try_catch, body_fields, await, throw,
    mbind, M_bind, mret, M_ret in *;
  cbn [db calls auth_userId params_id body with_body with_id] in *.

(** Reduce the tests just decided, and nothing of the values. *)
Ltac step :=
  cbv beta iota zeta;
  cbn [negb orb andb fst snd db calls is_undefined falsy] in *;
  cbv beta iota zeta.

(** A non-empty identity, as the [!userId] test sees it. *)
Ltac identity H :=
  match type of H with
  | ?u <> [] => destruct u; [congruence | clear H]
  end.

(** * Properties *)

(** ** JavaScript values *)

Lemma nullish_set_prop (k : jstring) (x v : jsval) :
  nullish (set_prop k x v) = nullish v.
Proof. destruct v; reflexivity. Qed.

Lemma get_prop_set_prop_ne (k k' : jstring) (x v : jsval) :
  k <> k' -> get_prop k' (set_prop k x v) = get_prop k' v.
Proof.
  intros Hk. destruct v; try reflexivity.
  cbn. rewrite lookup_insert_ne; auto.
Qed.

(** Trimming at the start leaves nothing exactly when every code unit is
    white space. *)
Lemma trimStart_nil (s : jstring) :
  trimStart s = [] <-> Forall (fun c => is_white_space c = true) s.
Proof.
  induction s as [|c s IH]; cbn.
  - split; auto.
  - destruct (is_white_space c) eqn:Hc.
    + rewrite IH. split.
      * intros H. constructor; auto.
      * intros H. inversion H; auto.
    + split; [discriminate |].
      intros H. inversion H; congruence.
Qed.

(** What is left of a string after trimming holds a code unit that is not
    white space as soon as the string does. *)
Lemma trimStart_keeps (s : jstring) (c : N) :
  In c s -> is_white_space c = false -> In c (trimStart s).
Proof.
  induction s as [|x s IH]; cbn; [tauto |].
  intros [-> | Hin] Hc.
  - rewrite Hc. left. reflexivity.
  - destruct (is_white_space x); [auto | right; assumption].
Qed.

Lemma trimStart_sub (s : jstring) (c : N) : In c (trimStart s) -> In c s.
Proof.
  induction s as [|x s IH]; cbn; [tauto |].
  destruct (is_white_space x); cbn; auto.
Qed.

Lemma trim_keeps (s : jstring) (c : N) :
  In c s -> is_white_space c = false -> In c (trim s).
Proof.
  intros Hin Hc. unfold trim, trimEnd.
  apply in_rev. rewrite rev_involutive.
  apply trimStart_keeps; [| assumption].
  apply in_rev. rewrite rev_involutive.
  apply trimStart_keeps; assumption.
Qed.

Lemma trim_sub (s : jstring) (c : N) : In c (trim s) -> In c s.
Proof.
  unfold trim, trimEnd. intros H.
  apply in_rev in H. apply trimStart_sub in H. apply in_rev in H.
  apply trimStart_sub in H. assumption.
Qed.

(** The first code unit of a trimmed string is not white space. *)
Lemma trimStart_head (s : jstring) (c : N) (r : jstring) :
  trimStart s = c :: r -> is_white_space c = false.
Proof.
  induction s as [|x s IH]; cbn; [discriminate |].
  destruct (is_white_space x) eqn:Hx; [exact IH |].
  intros H. injection H as -> _. assumption.
Qed.

(** A value passes [isNonEmptyString] exactly when it is a string with a
    code unit that is not white space. *)
Lemma isNonEmptyString_spec (v : jsval) :
  isNonEmptyString v = true <->
  exists s c, v = VString s /\ In c s /\ is_white_space c = false.
Proof.
  split.
  - destruct v as [| | | |s| |]; cbn; try discriminate.
    intros H. apply Z.ltb_lt in H.
    unfold trim, trimEnd in *.
    destruct (trimStart (rev (trimStart s))) as [|c r] eqn:Ht;
      [cbn in H; lia |].
    exists s, c. split; [reflexivity |]. split.
    + apply trimStart_sub, in_rev.
      apply (trimStart_sub (rev (trimStart s))). rewrite Ht. left. reflexivity.
    + eapply trimStart_head; eassumption.
  - intros (s & c & -> & Hin & Hc). cbn.
    apply Z.ltb_lt.
    pose proof (trim_keeps s c Hin Hc) as Hk.
    destruct (trim s); [destruct Hk | cbn; lia].
Qed.

(** ** The in-memory persistence layer keeps the contract *)

Lemma Mem_creates_as_given : creates_as_given Mem.Q.
Proof.
  intros data d p d'. cbn. unfold Mem.createProduct.
  destruct data as [t ds i u]. cbn.
  destruct t, ds, i; cbn; try discriminate.
  intros H. injection H as <- _. cbn. auto.
Qed.

Lemma Mem_column (o : option jsval) (old new : jstring) :
  Mem.column o old = Some new -> field_after o old new.
Proof.
  destruct o as [v|]; cbn.
  - destruct v; cbn; try discriminate. intros H. injection H as ->. reflexivity.
  - intros H. injection H as ->. reflexivity.
Qed.

Lemma Mem_patch (data : Updates.t) (p p' : Product.t) :
  Mem.patch data p = Some p' -> patched data p p'.
Proof.
  unfold Mem.patch.
  destruct (Mem.column (Updates.title data) (Product.title p)) as [t|] eqn:Ht;
    cbn; [| discriminate].
  destruct (Mem.column (Updates.description data) (Product.description p))
    as [d|] eqn:Hd; cbn; [| discriminate].
  destruct (Mem.column (Updates.imageUrl data) (Product.imageUrl p))
    as [i|] eqn:Hi; cbn; [| discriminate].
  intros H. injection H as <-.
  repeat split; cbn; auto using Mem_column.
Qed.

Lemma Mem_updates_as_given : updates_as_given Mem.Q.
Proof.
  intros id data d p' d'. cbn.
  unfold Mem.updateProduct, Mem.getProductById, Mem.find.
  destruct id as [i|]; cbn; [| discriminate].
  destruct (d !! i) as [p|] eqn:Hp; cbn; [| discriminate].
  destruct (Mem.patch data p) as [q|] eqn:Hq; [| discriminate].
  intros H. injection H as <- <-.
  exists p. split; [reflexivity |].
  split; [apply Mem_patch; assumption |].
  rewrite lookup_insert_eq. reflexivity.
Qed.

Lemma Mem_lookup_reads : lookup_reads Mem.Q.
Proof. intros id d r d' H. injection H as _ <-. reflexivity. Qed.

Lemma Mem_delete_removes : delete_removes Mem.Q.
Proof.
  intros id d r d'. cbn.
  unfold Mem.deleteProduct, Mem.getProductById, Mem.find.
  destruct id as [i|]; intros H; injection H as _ <-; cbn.
  - rewrite lookup_delete_eq. reflexivity.
  - reflexivity.
Qed.

(** ** createProduct *)

(** createProduct reads its body only through the three fields [title],
    [description] and [imageUrl]: another property of the body changes
    nothing. *)
Lemma createProduct_reads_three_fields {DB} (Q : queries.t DB)
    (k : jstring) (x : jsval) (req : Request) (w : World DB) :
  k <> lit "title" -> k <> lit "description" -> k <> lit "imageUrl" ->
  createProduct Q (with_body (set_prop k x (body req)) req) w =
  createProduct Q req w.
Proof.
  intros Ht Hd Hi. run.
  rewrite nullish_set_prop, !get_prop_set_prop_ne by assumption.
  reflexivity.
Qed.

(** C1. For every createProduct request with an authenticated identity and
    valid title, description and imageUrl, the one persistence call is
    createProduct with [userId] the caller's identity and the fields of the
    body; when it returns, the answer is 201 with the created Product, whose
    [userId] is the caller's; and a [userId] in the body is never read:
    setting it to any value leaves the handler's run as it is. *)
Theorem createProduct_userId_is_the_callers {DB} (Q : queries.t DB)
    (req : Request) (w : World DB) (u : jstring) :
  creates_as_given Q ->
  auth_userId req = Some u -> u <> [] ->
  create_body_ok (body req) = true ->
  let data :=
    NewProduct.mk (get_prop (lit "title") (body req))
                  (get_prop (lit "description") (body req))
                  (get_prop (lit "imageUrl") (body req)) u in
  calls (createProduct Q req w).2 = calls w ++ [CreateProduct data] /\
  (forall p d',
      queries.createProduct Q data (db w) = (Returned p, d') ->
      createProduct Q req w =
        (mkResponse 201 (ProductBody p),
         mkWorld d' (calls w ++ [CreateProduct data])) /\
      Product.userId p = u) /\
  (forall x,
      createProduct Q (with_body (set_prop (lit "userId") x (body req)) req) w
      = createProduct Q req w).
Proof.
  intros HQ Hauth Hu Hok data.
  unfold create_body_ok in Hok.
  apply andb_prop in Hok as [Hok Hi]. apply andb_prop in Hok as [Hok Hd].
  apply andb_prop in Hok as [Hn Ht]. apply negb_true_iff in Hn.
  split; [| split].
  - run. rewrite Hauth. identity Hu.
    rewrite Hn. step. rewrite Ht, Hd, Hi. step.
    fold data. destruct (queries.createProduct Q data (db w)) as [[p|] d'];
      reflexivity.
  - intros p d' Hp. split.
    + run. rewrite Hauth. identity Hu.
      rewrite Hn. step. rewrite Ht, Hd, Hi. step.
      fold data. rewrite Hp. reflexivity.
    + apply HQ in Hp. destruct Hp as (_ & _ & _ & Hp). symmetry. exact Hp.
  - intros x. apply createProduct_reads_three_fields; discriminate.
Qed.

Lemma createProduct_userId_is_the_callers_witness :
  let req :=
    request alice ""
      (object [prop "title" (str "T"); prop "description" (str "D");
               prop "imageUrl" (str "http://x/y.png");
               prop "userId" (str "user_bob")]) in
  let p :=
    Product.mk (fresh (dom (db shop))) (lit "T") (lit "D")
               (lit "http://x/y.png") alice in
  (createProduct Mem.Q req shop).1 = mkResponse 201 (ProductBody p) /\
  Product.userId p = alice /\
  createProduct Mem.Q (with_body (set_prop (lit "userId") VNull (body req)) req)
                shop
  = createProduct Mem.Q req shop.
Proof.
  intros req p.
  destruct (createProduct_userId_is_the_callers Mem.Q req shop alice
              Mem_creates_as_given eq_refl ltac:(discriminate) eq_refl)
    as (_ & H & Hbody).
  destruct (H p (<[Product.id p := p]> (db shop)) eq_refl) as [Hr Hu].
  split; [rewrite Hr; reflexivity |].
  split; [exact Hu | apply Hbody].
Defined.

(** ** What updateProduct and deleteProduct do once their guards pass *)

(** After the identity test and the validation of the body, updateProduct is
    the lookup, the ownership test and the update, with exactly the supplied
    fields as the partial update. *)
Lemma updateProduct_accepted {DB} (Q : queries.t DB)
    (req : Request) (w : World DB) (u : jstring) :
  auth_userId req = Some u -> u <> [] ->
  update_body_ok (body req) = true ->
  let id := rawId (params_id req) in
  let data := supplied (body req) in
  updateProduct Q req w =
  match queries.getProductById Q id (db w) with
  | (Threw, d) =>
      (error 500 "Failed to update product",
       mkWorld d (calls w ++ [GetProductById id]))
  | (Returned None, d) =>
      (error 404 "Product not found",
       mkWorld d (calls w ++ [GetProductById id]))
  | (Returned (Some p), d) =>
      if bool_decide (Product.userId p <> u)
      then (error 403 "You can only update your own products",
            mkWorld d (calls w ++ [GetProductById id]))
      else
        match queries.updateProduct Q id data d with
        | (Returned r, d') =>
            (mkResponse 200 (product_json r),
             mkWorld d' ((calls w ++ [GetProductById id]) ++
                         [UpdateProduct id data]))
        | (Threw, d') =>
            (error 500 "Failed to update product",
             mkWorld d' ((calls w ++ [GetProductById id]) ++
                         [UpdateProduct id data]))
        end
  end.
Proof.
  intros Hauth Hu Hok id data. subst id data.
  unfold update_body_ok, present_invalid in Hok.
  run. rewrite Hauth. identity Hu.
  unfold supplied, entry.
  set (t := get_prop (lit "title") (body req)) in *.
  set (d := get_prop (lit "description") (body req)) in *.
  set (i := get_prop (lit "imageUrl") (body req)) in *.
  destruct (nullish (body req)); [discriminate |]. step.
  destruct (is_undefined t), (isNonEmptyString t); try discriminate;
  destruct (is_undefined d), (isNonEmptyString d); try discriminate;
  destruct (is_undefined i), (isNonEmptyString i); try discriminate;
  step; cbn [Updates.keys Updates.is_Some_dec Updates.title
             Updates.description Updates.imageUrl Updates.empty
             app length Nat.eqb];
  (destruct (queries.getProductById Q (rawId (params_id req)) (db w))
     as [[[p|]|] d1]; [| reflexivity | reflexivity]);
  step; (destruct (bool_decide (Product.userId p <> n :: u));
         [reflexivity |]);
  step;
  match goal with
  | |- context [queries.updateProduct Q ?a ?b ?c] =>
      destruct (queries.updateProduct Q a b c) as [[r|] d2]; reflexivity
  end.
Qed.

Lemma deleteProduct_identified {DB} (Q : queries.t DB)
    (req : Request) (w : World DB) (u : jstring) :
  auth_userId req = Some u -> u <> [] ->
  let id := rawId (params_id req) in
  deleteProduct Q req w =
  match queries.getProductById Q id (db w) with
  | (Threw, d) =>
      (error 500 "Failed to delete product",
       mkWorld d (calls w ++ [GetProductById id]))
  | (Returned None, d) =>
      (error 404 "Product not found",
       mkWorld d (calls w ++ [GetProductById id]))
  | (Returned (Some p), d) =>
      if bool_decide (Product.userId p <> u)
      then (error 403 "You can only delete your own products",
            mkWorld d (calls w ++ [GetProductById id]))
      else
        match queries.deleteProduct Q id d with
        | (Returned _, d') =>
            (mkResponse 200 (MessageBody "Product deleted successfully"),
             mkWorld d' ((calls w ++ [GetProductById id]) ++
                         [DeleteProduct id]))
        | (Threw, d') =>
            (error 500 "Failed to delete product",
             mkWorld d' ((calls w ++ [GetProductById id]) ++
                         [DeleteProduct id]))
        end
  end.
Proof.
  intros Hauth Hu id. subst id.
  run. rewrite Hauth. identity Hu.
  destruct (queries.getProductById Q (rawId (params_id req)) (db w))
    as [[[p|]|] d1]; [| reflexivity | reflexivity].
  step. destruct (bool_decide (Product.userId p <> n :: u)); [reflexivity |].
  step. destruct (queries.deleteProduct Q (rawId (params_id req)) d1)
    as [[r|] d2]; reflexivity.
Qed.

(** ** Ownership *)

(** C2, as stated, fails for updateProduct: the body is validated before the
    product is looked up, so bob's update of alice's product with the body
    [{}] is answered 400, not 403. *)
Lemma non_owner_update_of_no_field_is_400 :
  auth_userId (request bob "p1" (object [])) = Some bob /\
  queries.getProductById Mem.Q (Some (lit "p1")) (db shop)
    = (Returned (Some lamp), db shop) /\
  Product.userId lamp <> bob /\
  updateProduct Mem.Q (request bob "p1" (object [])) shop
    = (error 400 "At least one field is required", shop) /\
  status (updateProduct Mem.Q (request bob "p1" (object [])) shop).1 <> 403.
Proof.
  split; [reflexivity |]. split; [reflexivity |].
  split; [discriminate |]. split; [reflexivity | discriminate].
Qed.

(** C2 (amended). For every deleteProduct request, and every updateProduct
    request whose body passes validation, where the caller's identity is
    present, the product with the given id exists and its [userId] differs
    from the caller's identity: the response is 403 with the handler's own
    message, the lookup is the only persistence call made (no mutating
    call), so the database is as it was and the product is still
    retrievable afterward. *)
Theorem non_owner_is_refused {DB} (Q : queries.t DB)
    (req : Request) (w : World DB) (u : jstring) (p : Product.t) :
  auth_userId req = Some u -> u <> [] ->
  queries.getProductById Q (rawId (params_id req)) (db w)
    = (Returned (Some p), db w) ->
  Product.userId p <> u ->
  let after :=
    mkWorld (db w) (calls w ++ [GetProductById (rawId (params_id req))]) in
  deleteProduct Q req w
    = (error 403 "You can only delete your own products", after) /\
  (update_body_ok (body req) = true ->
   updateProduct Q req w
     = (error 403 "You can only update your own products", after)) /\
  mutating (GetProductById (rawId (params_id req))) = false /\
  (falsy (rawId (params_id req)) = false ->
   (getProductById Q req after).1 = mkResponse 200 (ProductBody p)).
Proof.
  intros Hauth Hu Hp Hne after.
  split; [| split; [| split]].
  - rewrite (deleteProduct_identified Q req w u Hauth Hu). cbv zeta.
    rewrite Hp, bool_decide_eq_true_2 by assumption. reflexivity.
  - intros Hok.
    rewrite (updateProduct_accepted Q req w u Hauth Hu Hok). cbv zeta.
    rewrite Hp, bool_decide_eq_true_2 by assumption. reflexivity.
  - reflexivity.
  - intros Hid. subst after. run. rewrite Hid. step. rewrite Hp. reflexivity.
Qed.

Lemma non_owner_is_refused_witness :
  deleteProduct Mem.Q (request bob "p1" (object [])) shop
    = (error 403 "You can only delete your own products",
       mkWorld (db shop) [GetProductById (Some (lit "p1"))]) /\
  updateProduct Mem.Q (request bob "p1" (object [prop "title" (str "Mine")]))
                shop
    = (error 403 "You can only update your own products",
       mkWorld (db shop) [GetProductById (Some (lit "p1"))]) /\
  (getProductById Mem.Q (request bob "p1" (object []))
     (deleteProduct Mem.Q (request bob "p1" (object [])) shop).2).1
    = mkResponse 200 (ProductBody lamp).
Proof.
  destruct (non_owner_is_refused Mem.Q (request bob "p1" (object [])) shop
              bob lamp eq_refl ltac:(discriminate) eq_refl
              ltac:(discriminate)) as (Hd & _ & _ & Hg).
  destruct (non_owner_is_refused Mem.Q
              (request bob "p1" (object [prop "title" (str "Mine")])) shop
              bob lamp eq_refl ltac:(discriminate) eq_refl
              ltac:(discriminate)) as (_ & Hu & _ & _).
  split; [exact Hd |]. split; [exact (Hu eq_refl) |].
  rewrite Hd. exact (Hg eq_refl).
Defined.

(** ** Validation of the body of updateProduct *)

(** C3. In updateProduct with the identity present, the supplied fields are
    checked in the order title, description, imageUrl: the first one that is
    present and not a string non-empty after trimming is answered 400 with
    its own message, and nothing else happens: the world is as it was, so
    the later fields are not looked at and no lookup is made. *)
Theorem updateProduct_validates_in_order {DB} (Q : queries.t DB)
    (req : Request) (w : World DB) (u : jstring) :
  auth_userId req = Some u -> u <> [] ->
  nullish (body req) = false ->
  let title := get_prop (lit "title") (body req) in
  let description := get_prop (lit "description") (body req) in
  let imageUrl := get_prop (lit "imageUrl") (body req) in
  (present_invalid title = true ->
   updateProduct Q req w = (error 400 "Invalid title", w)) /\
  (present_invalid title = false ->
   present_invalid description = true ->
   updateProduct Q req w = (error 400 "Invalid description", w)) /\
  (present_invalid title = false ->
   present_invalid description = false ->
   present_invalid imageUrl = true ->
   updateProduct Q req w = (error 400 "Invalid imageUrl", w)).
Proof.
  intros Hauth Hu Hn title description imageUrl.
  unfold present_invalid.
  repeat split; intros; run; rewrite Hauth; identity Hu;
    rewrite Hn; step; fold title description imageUrl;
    repeat match goal with
           | H : _ && _ = _ |- _ => rewrite H
           end;
    reflexivity.
Qed.

Lemma updateProduct_validates_in_order_witness :
  updateProduct Mem.Q
    (request alice "p1"
       (object [prop "title" (str ""); prop "description" (str "valid")]))
    shop
  = (error 400 "Invalid title", shop) /\
  updateProduct Mem.Q
    (request alice "no such product"
       (object [prop "title" (str ""); prop "description" (str "valid")]))
    shop
  = (error 400 "Invalid title", shop).
Proof.
  split.
  - apply (updateProduct_validates_in_order Mem.Q
             (request alice "p1"
                (object [prop "title" (str "");
                         prop "description" (str "valid")]))
             shop alice eq_refl ltac:(discriminate) eq_refl).
    reflexivity.
  - apply (updateProduct_validates_in_order Mem.Q
             (request alice "no such product"
                (object [prop "title" (str "");
                         prop "description" (str "valid")]))
             shop alice eq_refl ltac:(discriminate) eq_refl).
    reflexivity.
Defined.



(** ** getProductById *)

(** C6. For every getProductById request with a non-empty id whose lookup
    raises no error: when the lookup finds no Product the answer is 404
    "Product not found"; when it finds one, the answer is 200 with that
    Product as the body. *)
Theorem getProductById_found_or_404 {DB} (Q : queries.t DB)
    (req : Request) (w : World DB) (id : jstring) :
  rawId (params_id req) = Some id -> id <> [] ->
  (forall d,
      queries.getProductById Q (Some id) (db w) = (Returned None, d) ->
      getProductById Q req w
      = (error 404 "Product not found",
         mkWorld d (calls w ++ [GetProductById (Some id)]))) /\
  (forall p d,
      queries.getProductById Q (Some id) (db w) = (Returned (Some p), d) ->
      getProductById Q req w
      = (mkResponse 200 (ProductBody p),
         mkWorld d (calls w ++ [GetProductById (Some id)]))).
Proof.
  intros Hid Hne. identity Hne.
  split; intros; run; rewrite Hid; step;
    match goal with H : queries.getProductById _ _ _ = _ |- _ => rewrite H end;
    reflexivity.
Qed.

Lemma getProductById_found_or_404_witness :
  getProductById Mem.Q (request bob "abc123" VUndefined) shop
    = (error 404 "Product not found",
       mkWorld (db shop) [GetProductById (Some (lit "abc123"))]) /\
  getProductById Mem.Q (request bob "p1" VUndefined) shop
    = (mkResponse 200 (ProductBody lamp),
       mkWorld (db shop) [GetProductById (Some (lit "p1"))]).
Proof.
  split.
  - apply (getProductById_found_or_404 Mem.Q
             (request bob "abc123" VUndefined) shop (lit "abc123")
             eq_refl ltac:(discriminate)).
    reflexivity.
  - apply (getProductById_found_or_404 Mem.Q
             (request bob "p1" VUndefined) shop (lit "p1")
             eq_refl ltac:(discriminate)).
    reflexivity.
Defined.

(** C7. For every getProductById request: when the id path parameter is
    absent or the empty string, the answer is 400 "Product id is required"
    and no persistence call is made (the world is as it was); when the
    routing layer supplies a sequence, only its first element is used: the
    one persistence call is the lookup of the first element, the answer is
    what that lookup gives (200 with the Product found, 404 when none is),
    and the handler runs as on the first element alone (as with no id when
    the sequence is empty or its first element is the empty string). *)
Theorem getProductById_requires_id {DB} (Q : queries.t DB)
    (req : Request) (w : World DB) :
  (params_id req = PAbsent \/ params_id req = PString [] ->
   getProductById Q req w = (error 400 "Product id is required", w)) /\
  (forall s rest,
      params_id req = PArray (s :: rest) ->
      getProductById Q req w = getProductById Q (with_id (PString s) req) w) /\
  (params_id req = PArray [] ->
   getProductById Q req w = getProductById Q (with_id PAbsent req) w) /\
  (forall s rest,
      params_id req = PArray (s :: rest) -> s <> [] ->
      calls (getProductById Q req w).2
        = calls w ++ [GetProductById (Some s)] /\
      forall found d,
        queries.getProductById Q (Some s) (db w) = (Returned found, d) ->
        getProductById Q req w
        = (match found with
           | Some p => mkResponse 200 (ProductBody p)
           | None => error 404 "Product not found"
           end,
           mkWorld d (calls w ++ [GetProductById (Some s)]))) /\
  (forall rest,
      params_id req = PArray [] \/ params_id req = PArray ([] :: rest) ->
      getProductById Q req w = (error 400 "Product id is required", w)).
Proof.
  split; [| split; [| split; [| split]]].
  - intros [H | H]; run; rewrite H; reflexivity.
  - intros s rest H. run. rewrite H. reflexivity.
  - intros H. run. rewrite H. reflexivity.
  - intros s rest H Hs. identity Hs. split.
    + run. rewrite H. cbn [rawId head]. step.
      destruct (queries.getProductById Q (Some (n :: s)) (db w))
        as [[[p|]|] d]; reflexivity.
    + intros found d Hd. run. rewrite H. cbn [rawId head]. step.
      rewrite Hd. destruct found; reflexivity.
  - intros rest [H | H]; run; rewrite H; reflexivity.
Qed.

Lemma getProductById_requires_id_witness :
  getProductById Mem.Q
    (mkRequest None (PArray [lit "p1"; lit "zzz"]) VUndefined) shop
    = (mkResponse 200 (ProductBody lamp),
       mkWorld (db shop) [GetProductById (Some (lit "p1"))]) /\
  getProductById Mem.Q
    (mkRequest None (PArray [lit "zzz"; lit "p1"]) VUndefined) shop
    = (error 404 "Product not found",
       mkWorld (db shop) [GetProductById (Some (lit "zzz"))]) /\
  getProductById Mem.Q (mkRequest None PAbsent VUndefined) shop
    = (error 400 "Product id is required", shop) /\
  getProductById Mem.Q (mkRequest None (PString []) VUndefined) shop
    = (error 400 "Product id is required", shop).
Proof.
  split; [| split; [| split]].
  - destruct (getProductById_requires_id Mem.Q
                (mkRequest None (PArray [lit "p1"; lit "zzz"]) VUndefined)
                shop) as (_ & _ & _ & H & _).
    exact (proj2 (H (lit "p1") [lit "zzz"] eq_refl ltac:(discriminate))
                 (Some lamp) (db shop) eq_refl).
  - destruct (getProductById_requires_id Mem.Q
                (mkRequest None (PArray [lit "zzz"; lit "p1"]) VUndefined)
                shop) as (_ & _ & _ & H & _).
    exact (proj2 (H (lit "zzz") [lit "p1"] eq_refl ltac:(discriminate))
                 None (db shop) eq_refl).
  - destruct (getProductById_requires_id Mem.Q
                (mkRequest None PAbsent VUndefined) shop) as (H & _).
    exact (H (or_introl eq_refl)).
  - destruct (getProductById_requires_id Mem.Q
                (mkRequest None (PString []) VUndefined) shop) as (H & _).
    exact (H (or_intror eq_refl)).
Defined.

(** ** Successful runs, read backwards *)

(** A 200 from updateProduct tells that the identity was present and the
    body passed validation. *)
Lemma updateProduct_200 {DB} (Q : queries.t DB) (req : Request) (w : World DB) :
  status (updateProduct Q req w).1 = 200 ->
  exists u,
    auth_userId req = Some u /\ u <> [] /\ update_body_ok (body req) = true.
Proof.
  intros H.
  destruct (auth_userId req) as [[|c u]|] eqn:Hauth.
  - run. rewrite Hauth in H. discriminate.
  - exists (c :: u). split; [reflexivity |]. split; [discriminate |].
    destruct (update_body_ok (body req)) eqn:Hok; [reflexivity |].
    exfalso. unfold update_body_ok, present_invalid in Hok.
    run. rewrite Hauth in H.
    set (t := get_prop (lit "title") (body req)) in *.
    set (d := get_prop (lit "description") (body req)) in *.
    set (i := get_prop (lit "imageUrl") (body req)) in *.
    destruct (nullish (body req)); [discriminate |].
    destruct (is_undefined t), (isNonEmptyString t);
    destruct (is_undefined d), (isNonEmptyString d);
    destruct (is_undefined i), (isNonEmptyString i);
    discriminate.
  - run. rewrite Hauth in H. discriminate.
Qed.

(** A 201 from createProduct tells that the identity was present and the
    body passed validation. *)
Lemma createProduct_201 {DB} (Q : queries.t DB) (req : Request) (w : World DB) :
  status (createProduct Q req w).1 = 201 ->
  exists u,
    auth_userId req = Some u /\ u <> [] /\ create_body_ok (body req) = true.
Proof.
  intros H.
  destruct (auth_userId req) as [[|c u]|] eqn:Hauth.
  - run. rewrite Hauth in H. discriminate.
  - exists (c :: u). split; [reflexivity |]. split; [discriminate |].
    destruct (create_body_ok (body req)) eqn:Hok; [reflexivity |].
    exfalso. unfold create_body_ok in Hok.
    run. rewrite Hauth in H.
    destruct (nullish (body req)); [discriminate |].
    destruct (isNonEmptyString (get_prop (lit "title") (body req))),
             (isNonEmptyString (get_prop (lit "description") (body req))),
             (isNonEmptyString (get_prop (lit "imageUrl") (body req)));
    discriminate.
  - run. rewrite Hauth in H. discriminate.
Qed.

(** A 200 from deleteProduct tells that the product was found, was the
    caller's, and that the delete call returned. *)
Lemma deleteProduct_200 {DB} (Q : queries.t DB) (req : Request) (w : World DB) :
  status (deleteProduct Q req w).1 = 200 ->
  let id := rawId (params_id req) in
  exists p d r d',
    auth_userId req = Some (Product.userId p) /\
    queries.getProductById Q id (db w) = (Returned (Some p), d) /\
    queries.deleteProduct Q id d = (Returned r, d') /\
    (deleteProduct Q req w).2
      = mkWorld d' (calls w ++ [GetProductById id; DeleteProduct id]).
Proof.
  intros H id. subst id.
  destruct (auth_userId req) as [[|c u]|] eqn:Hauth;
    [run; rewrite Hauth in H; discriminate | |
     run; rewrite Hauth in H; discriminate].
  rewrite (deleteProduct_identified Q req w (c :: u) Hauth) in * by discriminate.
  cbv zeta in *.
  destruct (queries.getProductById Q (rawId (params_id req)) (db w))
    as [[[p|]|] d]; try discriminate.
  case_bool_decide as Hown; [discriminate |].
  destruct (queries.deleteProduct Q (rawId (params_id req)) d)
    as [[r|] d'] eqn:Hdel; [| discriminate].
  exists p, d, r, d'.
  destruct (decide (Product.userId p = c :: u)) as [-> | Hne];
    [| contradiction].
  rewrite <- app_assoc. auto.
Qed.

(** ** updateProduct is a partial update *)

(** Every entry of the partial update made from an accepted body is a value
    that passed validation. *)
Lemma supplied_valid (b : jsval) (v : jsval) :
  update_body_ok b = true ->
  In (Some v) [Updates.title (supplied b); Updates.description (supplied b);
               Updates.imageUrl (supplied b)] ->
  isNonEmptyString v = true.
Proof.
  unfold update_body_ok, present_invalid, supplied, entry.
  cbn [In Updates.title Updates.description Updates.imageUrl].
  set (t := get_prop (lit "title") b).
  set (d := get_prop (lit "description") b).
  set (i := get_prop (lit "imageUrl") b).
  intros Hok [H | [H | [H | []]]];
    destruct (nullish b); try discriminate;
    destruct (is_undefined t), (isNonEmptyString t) eqn:Et; try discriminate;
    destruct (is_undefined d), (isNonEmptyString d) eqn:Ed; try discriminate;
    destruct (is_undefined i), (isNonEmptyString i) eqn:Ei; try discriminate;
    injection H as <-; assumption.
Qed.

(** C4. For every successful updateProduct call (status 200): the calls are
    the lookup and one update whose data are exactly the fields supplied in
    the body, each of which passed validation; the data have no [id] and no
    [userId]; and the updated Product is the prior one with the supplied
    fields replaced: every other field, its [id] and its [userId] (the
    caller's) are as before. *)
Theorem updateProduct_is_a_partial_update {DB} (Q : queries.t DB)
    (req : Request) (w : World DB) :
  lookup_reads Q -> updates_as_given Q ->
  status (updateProduct Q req w).1 = 200 ->
  let id := rawId (params_id req) in
  let data := supplied (body req) in
  exists p,
    queries.getProductById Q id (db w) = (Returned (Some p), db w) /\
    auth_userId req = Some (Product.userId p) /\
    calls (updateProduct Q req w).2
      = calls w ++ [GetProductById id; UpdateProduct id data] /\
    (forall v,
        In (Some v) [Updates.title data; Updates.description data;
                     Updates.imageUrl data] ->
        isNonEmptyString v = true) /\
    (forall p',
        json (updateProduct Q req w).1 = ProductBody p' ->
        patched data p p' /\
        auth_userId req = Some (Product.userId p') /\
        queries.getProductById Q id (db (updateProduct Q req w).2)
          = (Returned (Some p'), db (updateProduct Q req w).2)).
Proof.
  intros Hread Hupd H200 id data.
  destruct (updateProduct_200 Q req w H200) as (u & Hauth & Hu & Hok).
  rewrite (updateProduct_accepted Q req w u Hauth Hu Hok) in *.
  cbv zeta in *. fold id data in H200 |- *.
  destruct (queries.getProductById Q id (db w)) as [[[p|]|] d] eqn:Hp;
    try discriminate.
  apply Hread in Hp as Hd. subst d.
  case_bool_decide as Hown; [discriminate |].
  destruct (decide (Product.userId p = u)) as [Hpu | Hne]; [| contradiction].
  destruct (queries.updateProduct Q id data (db w)) as [[r|] d'] eqn:Hr;
    [| discriminate].
  exists p. cbn [fst snd calls db json].
  split; [reflexivity |]. split; [congruence |].
  split; [rewrite <- app_assoc; reflexivity |].
  split; [intros v; apply supplied_valid; assumption |].
  intros p' Hj. destruct r as [q|]; [| discriminate].
  injection Hj as ->.
  destruct (Hupd _ _ _ _ _ Hr) as (p0 & Hp0 & Hpatch & Hafter).
  rewrite Hp in Hp0. injection Hp0 as <-.
  split; [exact Hpatch |]. split; [| exact Hafter].
  destruct Hpatch as (_ & Hsame & _). congruence.
Qed.

Lemma updateProduct_is_a_partial_update_witness :
  let req := request alice "p1" (object [prop "title" (str " Desk lamp ")]) in
  let lamp' :=
    Product.mk (lit "p1") (lit " Desk lamp ") (lit "A desk lamp")
               (lit "http://x/lamp.png") alice in
  updateProduct Mem.Q req shop
    = (mkResponse 200 (ProductBody lamp'),
       mkWorld (<[lit "p1" := lamp']> (db shop))
         [GetProductById (Some (lit "p1"));
          UpdateProduct (Some (lit "p1"))
            (Updates.mk (Some (str " Desk lamp ")) None None)]) /\
  patched (supplied (body req)) lamp lamp'.
Proof.
  intros req lamp'. split; [reflexivity |].
  destruct (updateProduct_is_a_partial_update Mem.Q req shop
              Mem_lookup_reads Mem_updates_as_given eq_refl)
    as (p & Hp & _ & _ & _ & H).
  injection Hp as <-.
  exact (proj1 (H lamp' eq_refl)).
Defined.

(** ** The calls of a run *)

Lemma made_app {DB} (w : World DB) (d : DB) (l : list Call) :
  made w (mkWorld d (calls w ++ l)) = l.
Proof. unfold made. cbn. apply drop_app_length. Qed.

Lemma made_nothing {DB} (w : World DB) : made w w = [].
Proof. unfold made. apply drop_all. Qed.

(** ** The id of updateProduct and deleteProduct *)

(** C8, as stated, fails: updateProduct and deleteProduct do not test the
    id.  With alice's identity, a deleteProduct with no id and an
    updateProduct with an id of one space and a valid body are both handed
    to the lookup and answered 404, not 400. *)
Lemma blank_id_is_answered_404 :
  blank_id (rawId (params_id (mkRequest (Some alice) PAbsent (object []))))
    = true /\
  deleteProduct Mem.Q (mkRequest (Some alice) PAbsent (object [])) shop
    = (error 404 "Product not found",
       mkWorld (db shop) [GetProductById None]) /\
  blank_id (rawId (params_id
                     (request alice " " (object [prop "title" (str "T")]))))
    = true /\
  update_body_ok (object [prop "title" (str "T")]) = true /\
  updateProduct Mem.Q (request alice " " (object [prop "title" (str "T")]))
                shop
    = (error 404 "Product not found",
       mkWorld (db shop) [GetProductById (Some (lit " "))]) /\
  status (deleteProduct Mem.Q (mkRequest (Some alice) PAbsent (object []))
                        shop).1 <> 400 /\
  status (updateProduct Mem.Q
            (request alice " " (object [prop "title" (str "T")])) shop).1
    <> 400.
Proof. repeat split; try reflexivity; discriminate. Qed.

(** C8 (amended). For every updateProduct or deleteProduct request with the
    identity present (and, for update, a body that passes validation), a
    missing or blank id path parameter is not refused: the handler's first
    persistence call is the lookup of the id as it came, the answer is 404
    "Product not found" when that lookup finds nothing, and it is 404, 403,
    200 or 500 in every case, never 400. *)
Theorem blank_id_is_looked_up {DB} (Q : queries.t DB)
    (req : Request) (w : World DB) (u : jstring) :
  auth_userId req = Some u -> u <> [] ->
  blank_id (rawId (params_id req)) = true ->
  let id := rawId (params_id req) in
  (exists l, made w (deleteProduct Q req w).2 = GetProductById id :: l) /\
  In (status (deleteProduct Q req w).1) [404; 403; 200; 500] /\
  (forall d,
      queries.getProductById Q id (db w) = (Returned None, d) ->
      deleteProduct Q req w
        = (error 404 "Product not found",
           mkWorld d (calls w ++ [GetProductById id]))) /\
  (update_body_ok (body req) = true ->
   (exists l, made w (updateProduct Q req w).2 = GetProductById id :: l) /\
   In (status (updateProduct Q req w).1) [404; 403; 200; 500] /\
   (forall d,
       queries.getProductById Q id (db w) = (Returned None, d) ->
       updateProduct Q req w
         = (error 404 "Product not found",
            mkWorld d (calls w ++ [GetProductById id])))).
Proof.
  intros Hauth Hu _ id.
  pose proof (deleteProduct_identified Q req w u Hauth Hu) as Hdel.
  pose proof (updateProduct_accepted Q req w u Hauth Hu) as Hupd.
  cbv zeta in Hdel, Hupd. fold id in Hdel, Hupd.
  split; [| split; [| split]].
  - rewrite Hdel.
    destruct (queries.getProductById Q id (db w)) as [[[p|]|] d];
      [| cbn [snd]; rewrite made_app; eauto
       | cbn [snd]; rewrite made_app; eauto].
    case_bool_decide; [cbn [snd]; rewrite made_app; eauto |].
    destruct (queries.deleteProduct Q id d) as [[r|] d'];
      cbn [snd]; rewrite <- app_assoc, made_app; cbn; eauto.
  - rewrite Hdel.
    destruct (queries.getProductById Q id (db w)) as [[[p|]|] d];
      [| cbn; tauto | cbn; tauto].
    case_bool_decide; [cbn; tauto |].
    destruct (queries.deleteProduct Q id d) as [[r|] d']; cbn; tauto.
  - intros d Hd. rewrite Hdel, Hd. reflexivity.
  - intros Hok. rewrite (Hupd Hok). split; [| split].
    + destruct (queries.getProductById Q id (db w)) as [[[p|]|] d];
        [| cbn [snd]; rewrite made_app; eauto
         | cbn [snd]; rewrite made_app; eauto].
      case_bool_decide; [cbn [snd]; rewrite made_app; eauto |].
      destruct (queries.updateProduct Q id (supplied (body req)) d)
        as [[r|] d'];
        cbn [snd]; rewrite <- app_assoc, made_app; cbn; eauto.
    + destruct (queries.getProductById Q id (db w)) as [[[p|]|] d];
        [| cbn; tauto | cbn; tauto].
      case_bool_decide; [cbn; tauto |].
      destruct (queries.updateProduct Q id (supplied (body req)) d)
        as [[r|] d']; cbn; tauto.
    + intros d Hd. rewrite Hd. reflexivity.
Qed.

Lemma blank_id_is_looked_up_witness :
  deleteProduct Mem.Q (mkRequest (Some alice) PAbsent (object [])) shop
    = (error 404 "Product not found",
       mkWorld (db shop) [GetProductById None]) /\
  updateProduct Mem.Q
    (request alice " " (object [prop "title" (str "T")])) shop
    = (error 404 "Product not found",
       mkWorld (db shop) [GetProductById (Some (lit " "))]).
Proof.
  split.
  - destruct (blank_id_is_looked_up Mem.Q
                (mkRequest (Some alice) PAbsent (object [])) shop alice
                eq_refl ltac:(discriminate) eq_refl) as (_ & _ & H & _).
    exact (H (db shop) eq_refl).
  - destruct (blank_id_is_looked_up Mem.Q
                (request alice " " (object [prop "title" (str "T")]))
                shop alice
                eq_refl ltac:(discriminate) eq_refl) as (_ & _ & _ & H).
    destruct (H eq_refl) as (_ & _ & H404).
    exact (H404 (db shop) eq_refl).
Defined.

(** ** deleteProduct on a product that is not there *)

(** C9. For every id and authenticated caller: when the lookup finds no
    Product of that id, deleteProduct answers 404 "Product not found" and
    the lookup is its only persistence call (no delete call); in
    particular, a deleteProduct that follows a successful one on the same
    id is answered 404, not a second success. *)
Theorem deleteProduct_of_missing_is_404 {DB} (Q : queries.t DB)
    (req : Request) (w : World DB) (u : jstring) :
  delete_removes Q ->
  auth_userId req = Some u -> u <> [] ->
  let id := rawId (params_id req) in
  (forall d,
      queries.getProductById Q id (db w) = (Returned None, d) ->
      deleteProduct Q req w
        = (error 404 "Product not found",
           mkWorld d (calls w ++ [GetProductById id]))) /\
  (status (deleteProduct Q req w).1 = 200 ->
   let w1 := (deleteProduct Q req w).2 in
   deleteProduct Q req w1
     = (error 404 "Product not found",
        mkWorld (db w1) (calls w1 ++ [GetProductById id]))).
Proof.
  intros Hrem Hauth Hu id.
  assert (Hmiss : forall w0 d,
             queries.getProductById Q id (db w0) = (Returned None, d) ->
             deleteProduct Q req w0
             = (error 404 "Product not found",
                mkWorld d (calls w0 ++ [GetProductById id]))).
  { intros w0 d Hd.
    rewrite (deleteProduct_identified Q req w0 u Hauth Hu). cbv zeta.
    fold id. rewrite Hd. reflexivity. }
  split; [apply Hmiss |].
  intros H200 w1.
  destruct (deleteProduct_200 Q req w H200) as (p & d & r & d' & _ & _ & Hdel & Hw).
  fold id in Hdel, Hw. apply Hrem in Hdel.
  apply Hmiss. subst w1. rewrite Hw. exact Hdel.
Qed.

Lemma deleteProduct_of_missing_is_404_witness :
  let req := request alice "p1" VUndefined in
  (deleteProduct Mem.Q req shop).1
    = mkResponse 200 (MessageBody "Product deleted successfully") /\
  (deleteProduct Mem.Q req (deleteProduct Mem.Q req shop).2).1
    = error 404 "Product not found" /\
  calls (deleteProduct Mem.Q req (deleteProduct Mem.Q req shop).2).2
    = [GetProductById (Some (lit "p1")); DeleteProduct (Some (lit "p1"));
       GetProductById (Some (lit "p1"))].
Proof.
  intros req. split; [reflexivity |].
  destruct (deleteProduct_of_missing_is_404 Mem.Q req shop alice
              Mem_delete_removes eq_refl ltac:(discriminate)) as [_ H].
  rewrite (H eq_refl). split; reflexivity.
Defined.

(** ** Values are stored as supplied *)

(** After the identity test and the validation of the body, createProduct is
    the one persistence call, on the fields as the body has them. *)
Lemma createProduct_accepted {DB} (Q : queries.t DB)
    (req : Request) (w : World DB) (u : jstring) :
  auth_userId req = Some u -> u <> [] ->
  create_body_ok (body req) = true ->
  let data :=
    NewProduct.mk (get_prop (lit "title") (body req))
                  (get_prop (lit "description") (body req))
                  (get_prop (lit "imageUrl") (body req)) u in
  createProduct Q req w =
  match queries.createProduct Q data (db w) with
  | (Returned p, d) =>
      (mkResponse 201 (ProductBody p),
       mkWorld d (calls w ++ [CreateProduct data]))
  | (Threw, d) =>
      (error 500 "Failed to create product",
       mkWorld d (calls w ++ [CreateProduct data]))
  end.
Proof.
  intros Hauth Hu Hok data. unfold create_body_ok in Hok.
  run. rewrite Hauth. identity Hu.
  destruct (nullish (body req)); [discriminate |]. step.
  destruct (isNonEmptyString (get_prop (lit "title") (body req)));
    [| discriminate].
  destruct (isNonEmptyString (get_prop (lit "description") (body req)));
    [| discriminate].
  destruct (isNonEmptyString (get_prop (lit "imageUrl") (body req)));
    [| discriminate].
  step. fold data.
  destruct (queries.createProduct Q data (db w)) as [[p|] d]; reflexivity.
Qed.

Lemma is_undefined_true (v : jsval) : is_undefined v = true -> v = VUndefined.
Proof. destruct v; cbn; congruence. Qed.

(** The field of an updated product that the body supplies is the supplied
    value itself. *)
Lemma field_after_entry (v : jsval) (old new : jstring) :
  field_after (entry v) old new -> v = VUndefined \/ v = VString new.
Proof.
  unfold entry. destruct (is_undefined v) eqn:Hv; cbn.
  - intros _. left. apply is_undefined_true. assumption.
  - intros ->. right. reflexivity.
Qed.

(** C10. createProduct and updateProduct store the field values of the body
    as they are: validation only asks for a code unit that is not white
    space, whatever stands around it, and for every accepted request the
    values handed to the persistence call, and the fields of the Product in
    the answer, are the strings of the body, untrimmed. *)
Theorem fields_are_stored_untrimmed {DB} (Q : queries.t DB)
    (req : Request) (w : World DB) :
  creates_as_given Q -> updates_as_given Q ->
  let title := get_prop (lit "title") (body req) in
  let description := get_prop (lit "description") (body req) in
  let imageUrl := get_prop (lit "imageUrl") (body req) in
  (forall pre c post,
      is_white_space c = false ->
      isNonEmptyString (VString (pre ++ c :: post)) = true) /\
  (forall p,
      (createProduct Q req w).1 = mkResponse 201 (ProductBody p) ->
      title = VString (Product.title p) /\
      description = VString (Product.description p) /\
      imageUrl = VString (Product.imageUrl p) /\
      calls (createProduct Q req w).2
        = calls w ++ [CreateProduct (NewProduct.mk title description imageUrl
                                                   (Product.userId p))]) /\
  (forall p,
      (updateProduct Q req w).1 = mkResponse 200 (ProductBody p) ->
      (title = VUndefined \/ title = VString (Product.title p)) /\
      (description = VUndefined \/
       description = VString (Product.description p)) /\
      (imageUrl = VUndefined \/ imageUrl = VString (Product.imageUrl p)) /\
      calls (updateProduct Q req w).2
        = calls w ++ [GetProductById (rawId (params_id req));
                      UpdateProduct (rawId (params_id req))
                                    (supplied (body req))]).
Proof.
  intros Hcre Hupd title description imageUrl.
  split; [| split].
  - intros pre c post Hc. apply isNonEmptyString_spec.
    exists (pre ++ c :: post), c. split; [reflexivity |].
    split; [| assumption]. apply in_or_app. right. left. reflexivity.
  - intros p Hr.
    assert (H201 : status (createProduct Q req w).1 = 201)
      by (rewrite Hr; reflexivity).
    destruct (createProduct_201 Q req w H201) as (u & Hauth & Hu & Hok).
    rewrite (createProduct_accepted Q req w u Hauth Hu Hok) in *.
    cbv zeta in *. fold title description imageUrl in Hr |- *.
    destruct (queries.createProduct Q _ (db w)) as [[q|] d] eqn:Hq;
      [| discriminate].
    injection Hr as ->.
    destruct (Hcre _ _ _ _ Hq) as (Ht & Hd & Hi & Hu').
    cbn in Ht, Hd, Hi, Hu'. subst u. auto.
  - intros p Hr.
    assert (H200 : status (updateProduct Q req w).1 = 200)
      by (rewrite Hr; reflexivity).
    destruct (updateProduct_200 Q req w H200) as (u & Hauth & Hu & Hok).
    rewrite (updateProduct_accepted Q req w u Hauth Hu Hok) in *.
    cbv zeta in *.
    destruct (queries.getProductById Q _ (db w)) as [[[p0|]|] d];
      try discriminate.
    case_bool_decide; [discriminate |].
    destruct (queries.updateProduct Q _ _ d) as [[[q|]|] d'] eqn:Hq;
      try discriminate.
    injection Hr as ->.
    destruct (Hupd _ _ _ _ _ Hq) as (p1 & _ & (_ & _ & Ht & Hd & Hi) & _).
    unfold supplied in Ht, Hd, Hi. cbn in Ht, Hd, Hi.
    apply field_after_entry in Ht, Hd, Hi.
    cbn [snd calls]. rewrite <- app_assoc. auto.
Qed.

Lemma fields_are_stored_untrimmed_witness :
  let req :=
    request alice "p1"
      (object [prop "title" (str " x "); prop "description" (str "D");
               prop "imageUrl" (str "http://x/y.png")]) in
  let created :=
    Product.mk (fresh (dom (db shop))) (lit " x ") (lit "D")
               (lit "http://x/y.png") alice in
  let updated :=
    Product.mk (lit "p1") (lit " x ") (lit "D") (lit "http://x/y.png") alice in
  trim (lit " x ") = lit "x" /\
  (createProduct Mem.Q req shop).1 = mkResponse 201 (ProductBody created) /\
  (updateProduct Mem.Q req shop).1 = mkResponse 200 (ProductBody updated) /\
  get_prop (lit "title") (body req) = VString (Product.title created) /\
  get_prop (lit "title") (body req) = VString (Product.title updated).
Proof.
  intros req created updated.
  destruct (fields_are_stored_untrimmed Mem.Q req shop
              Mem_creates_as_given Mem_updates_as_given) as (_ & Hc & Hu).
  split; [reflexivity |]. split; [reflexivity |]. split; [reflexivity |].
  split.
  - exact (proj1 (Hc created eq_refl)).
  - destruct (proj1 (Hu updated eq_refl)) as [H | H];
      [discriminate H | exact H].
Defined.

(** ** The identity test *)

(** Without an identity (null, or the empty string, which [!userId] takes
    for absent too) the four protected handlers answer 401 "Unauthorized"
    and do nothing else. *)
Theorem protected_handlers_require_identity {DB} (Q : queries.t DB)
    (req : Request) (w : World DB) :
  falsy (auth_userId req) = true ->
  getMyProducts Q req w = (error 401 "Unauthorized", w) /\
  createProduct Q req w = (error 401 "Unauthorized", w) /\
  updateProduct Q req w = (error 401 "Unauthorized", w) /\
  deleteProduct Q req w = (error 401 "Unauthorized", w).
Proof.
  intros H. run.
  destruct (auth_userId req) as [[|c u]|]; try discriminate;
    repeat split; reflexivity.
Qed.

Lemma protected_handlers_require_identity_witness :
  deleteProduct Mem.Q (mkRequest None (PString (lit "p1")) VUndefined) shop
    = (error 401 "Unauthorized", shop) /\
  createProduct Mem.Q (mkRequest (Some []) PAbsent (object [])) shop
    = (error 401 "Unauthorized", shop).
Proof.
  split.
  - apply (protected_handlers_require_identity Mem.Q
             (mkRequest None (PString (lit "p1")) VUndefined) shop eq_refl).
  - apply (protected_handlers_require_identity Mem.Q
             (mkRequest (Some []) PAbsent (object [])) shop eq_refl).
Defined.

(** A persistence call that raises is answered 500 with the handler's own
    message, and nothing of the error is in the body. *)
Lemma lookup_failure_is_500 {DB} (Q : queries.t DB)
    (req : Request) (w : World DB) (id : jstring) (d : DB) :
  rawId (params_id req) = Some id -> id <> [] ->
  queries.getProductById Q (Some id) (db w) = (Threw, d) ->
  getProductById Q req w
    = (error 500 "Failed to get product",
       mkWorld d (calls w ++ [GetProductById (Some id)])).
Proof.
  intros Hid Hne Hd. identity Hne.
  run. rewrite Hid. step. rewrite Hd. reflexivity.
Qed.

(** * More of the controller *)

Lemma Mem_lists_by_owner : lists_by_owner Mem.Q.
Proof.
  intros u d ps d' H. cbn in H. unfold Mem.getProductsByUserId in H.
  injection H as <- _.
  apply Forall_forall. intros p Hp.
  apply list_elem_of_filter in Hp. tauto.
Qed.

(** ** The public handlers *)

(** getAllProducts and getProductById are public: the answer and the calls
    are the same whoever asks (also nobody) and whatever the body is, and
    getAllProducts does not look at the id either. *)
Lemma public_handlers_ignore_identity {DB} (Q : queries.t DB)
    (req : Request) (w : World DB) (who : option jstring) (b : jsval)
    (id : PathParam) :
  getAllProducts Q (mkRequest who id b) w = getAllProducts Q req w /\
  getProductById Q (mkRequest who (params_id req) b) w
    = getProductById Q req w.
Proof. split; reflexivity. Qed.

(** ** getMyProducts *)

(** With the identity present, getMyProducts makes one call, for the
    products of the caller's own identity, whatever the id and the body of
    the request; it answers 200 or 500, and the products of a 200 are all
    the caller's. *)
Theorem getMyProducts_lists_the_callers {DB} (Q : queries.t DB)
    (req : Request) (w : World DB) (u : jstring) :
  lists_by_owner Q ->
  auth_userId req = Some u -> u <> [] ->
  made w (getMyProducts Q req w).2 = [GetProductsByUserId u] /\
  In (status (getMyProducts Q req w).1) [200; 500] /\
  (forall ps,
      json (getMyProducts Q req w).1 = ProductsBody ps ->
      status (getMyProducts Q req w).1 = 200 /\
      Forall (fun p => Product.userId p = u) ps) /\
  (forall id b,
      getMyProducts Q (mkRequest (Some u) id b) w = getMyProducts Q req w).
Proof.
  intros Hown Hauth Hu.
  assert (Hrun : forall r, auth_userId r = Some u ->
            getMyProducts Q r w =
            match queries.getProductsByUserId Q u (db w) with
            | (Returned ps, d) =>
                (mkResponse 200 (ProductsBody ps),
                 mkWorld d (calls w ++ [GetProductsByUserId u]))
            | (Threw, d) =>
                (error 500 "Failed to get user products",
                 mkWorld d (calls w ++ [GetProductsByUserId u]))
            end).
  { intros r Hr. run. rewrite Hr. destruct u; [congruence |].
    destruct (queries.getProductsByUserId Q (n :: u) (db w)) as [[ps|] d];
      reflexivity. }
  rewrite (Hrun req Hauth).
  destruct (queries.getProductsByUserId Q u (db w)) as [[ps|] d] eqn:Hps.
  - split; [apply made_app |]. split; [cbn; tauto |].
    split.
    + intros ps' H. injection H as <-. split; [reflexivity |].
      eapply Hown; eassumption.
    + intros id b. apply (Hrun (mkRequest (Some u) id b) eq_refl).
  - split; [apply made_app |]. split; [cbn; tauto |].
    split; [discriminate |].
    intros id b. apply (Hrun (mkRequest (Some u) id b) eq_refl).
Qed.

Lemma getMyProducts_lists_the_callers_witness :
  getMyProducts Mem.Q (request alice "" VUndefined) shop
    = (mkResponse 200 (ProductsBody [lamp]),
       mkWorld (db shop) [GetProductsByUserId alice]) /\
  getMyProducts Mem.Q (request bob "" VUndefined) shop
    = (mkResponse 200 (ProductsBody []),
       mkWorld (db shop) [GetProductsByUserId bob]) /\
  Forall (fun p => Product.userId p = alice) [lamp].
Proof.
  split; [reflexivity |]. split; [reflexivity |].
  destruct (getMyProducts_lists_the_callers Mem.Q
              (request alice "" VUndefined) shop alice
              Mem_lists_by_owner eq_refl ltac:(discriminate))
    as (_ & _ & H & _).
  exact (proj2 (H [lamp] eq_refl)).
Defined.

(** ** Bodies createProduct refuses *)

(** With the identity present and a body, createProduct answers 400 "Title,
    description, and imageUrl are required" as soon as one of the three
    fields is not a string that is non-empty after trimming (absent, null,
    a number, only white space, ...), and makes no persistence call. *)
Theorem createProduct_requires_three_fields {DB} (Q : queries.t DB)
    (req : Request) (w : World DB) (u : jstring) :
  auth_userId req = Some u -> u <> [] ->
  has_body req = true ->
  isNonEmptyString (get_prop (lit "title") (body req)) = false \/
  isNonEmptyString (get_prop (lit "description") (body req)) = false \/
  isNonEmptyString (get_prop (lit "imageUrl") (body req)) = false ->
  createProduct Q req w
    = (error 400 "Title, description, and imageUrl are required", w).
Proof.
  intros Hauth Hu Hb H. apply negb_true_iff in Hb.
  run. rewrite Hauth. identity Hu. rewrite Hb. step.
  destruct H as [H | [H | H]]; rewrite H; step;
    rewrite ?orb_true_r; reflexivity.
Qed.

Lemma createProduct_requires_three_fields_witness :
  createProduct Mem.Q
    (request alice ""
       (object [prop "title" (str "T"); prop "description" (str "   ");
                prop "imageUrl" (str "http://x/y.png")])) shop
    = (error 400 "Title, description, and imageUrl are required", shop) /\
  createProduct Mem.Q
    (request alice ""
       (object [prop "title" (str "T"); prop "description" (str "D");
                prop "imageUrl" (VNumber "7")])) shop
    = (error 400 "Title, description, and imageUrl are required", shop) /\
  createProduct Mem.Q
    (request alice "" (object [prop "title" (str "T")])) shop
    = (error 400 "Title, description, and imageUrl are required", shop).
Proof.
  split; [| split].
  - apply (createProduct_requires_three_fields Mem.Q
             (request alice ""
                (object [prop "title" (str "T");
                         prop "description" (str "   ");
                         prop "imageUrl" (str "http://x/y.png")])) shop alice
             eq_refl ltac:(discriminate) eq_refl).
    right. left. reflexivity.
  - apply (createProduct_requires_three_fields Mem.Q
             (request alice ""
                (object [prop "title" (str "T"); prop "description" (str "D");
                         prop "imageUrl" (VNumber "7")])) shop alice
             eq_refl ltac:(discriminate) eq_refl).
    right. right. reflexivity.
  - apply (createProduct_requires_three_fields Mem.Q
             (request alice "" (object [prop "title" (str "T")])) shop alice
             eq_refl ltac:(discriminate) eq_refl).
    right. left. reflexivity.
Defined.

(** ** A request without a body *)

(** With the identity present and [req.body] null or undefined, reading the
    fields of the body raises inside the [try]: createProduct and
    updateProduct answer 500 with their own message, not 400, and make no
    persistence call. *)
Theorem missing_body_is_500 {DB} (Q : queries.t DB)
    (req : Request) (w : World DB) (u : jstring) :
  auth_userId req = Some u -> u <> [] ->
  has_body req = false ->
  createProduct Q req w = (error 500 "Failed to create product", w) /\
  updateProduct Q req w = (error 500 "Failed to update product", w).
Proof.
  intros Hauth Hu Hb. apply negb_false_iff in Hb.
  split; run; rewrite Hauth; identity Hu; rewrite Hb; reflexivity.
Qed.

Lemma missing_body_is_500_witness :
  createProduct Mem.Q (request alice "" VUndefined) shop
    = (error 500 "Failed to create product", shop) /\
  updateProduct Mem.Q (request alice "p1" VNull) shop
    = (error 500 "Failed to update product", shop).
Proof.
  split.
  - apply (missing_body_is_500 Mem.Q (request alice "" VUndefined) shop alice
             eq_refl ltac:(discriminate) eq_refl).
  - apply (missing_body_is_500 Mem.Q (request alice "p1" VNull) shop alice
             eq_refl ltac:(discriminate) eq_refl).
Defined.

(** ** Refused bodies, in general *)

(** With the identity present, a body updateProduct does not accept is
    answered 400 (or 500, when there is no body) with the world as it was. *)
Lemma updateProduct_refused {DB} (Q : queries.t DB)
    (req : Request) (w : World DB) (u : jstring) :
  auth_userId req = Some u -> u <> [] ->
  update_body_ok (body req) = false ->
  exists r, updateProduct Q req w = (r, w) /\ In (status r) [400; 500].
Proof.
  intros Hauth Hu Hok. unfold update_body_ok, present_invalid in Hok.
  run. rewrite Hauth. identity Hu.
  set (t := get_prop (lit "title") (body req)) in *.
  set (d := get_prop (lit "description") (body req)) in *.
  set (i := get_prop (lit "imageUrl") (body req)) in *.
  destruct (nullish (body req));
    [eexists; split; [reflexivity | cbn; tauto] |].
  destruct (is_undefined t), (isNonEmptyString t);
  destruct (is_undefined d), (isNonEmptyString d);
  destruct (is_undefined i), (isNonEmptyString i);
  try discriminate Hok;
  (eexists; split; [reflexivity | cbn; tauto]).
Qed.

Lemma createProduct_refused {DB} (Q : queries.t DB)
    (req : Request) (w : World DB) (u : jstring) :
  auth_userId req = Some u -> u <> [] ->
  create_body_ok (body req) = false ->
  exists r, createProduct Q req w = (r, w) /\ In (status r) [400; 500].
Proof.
  intros Hauth Hu Hok. unfold create_body_ok in Hok.
  run. rewrite Hauth. identity Hu.
  destruct (nullish (body req));
    [eexists; split; [reflexivity | cbn; tauto] |].
  destruct (isNonEmptyString (get_prop (lit "title") (body req))),
           (isNonEmptyString (get_prop (lit "description") (body req))),
           (isNonEmptyString (get_prop (lit "imageUrl") (body req)));
  try discriminate Hok;
  (eexists; split; [reflexivity | cbn; tauto]).
Qed.

(** ** The statuses a handler answers with *)

(** Each handler answers with one of its own statuses and no other:
    getAllProducts 200 or 500; getMyProducts 200, 401 or 500;
    getProductById 200, 400, 404 or 500; createProduct 201, 400, 401 or
    500; updateProduct 200, 400, 401, 403, 404 or 500; deleteProduct 200,
    401, 403, 404 or 500.  In particular a read is never answered 403, and
    deleteProduct never 400. *)
Theorem handlers_status_codes {DB} (Q : queries.t DB)
    (req : Request) (w : World DB) :
  In (status (getAllProducts Q req w).1) [200; 500] /\
  In (status (getMyProducts Q req w).1) [200; 401; 500] /\
  In (status (getProductById Q req w).1) [200; 400; 404; 500] /\
  In (status (createProduct Q req w).1) [201; 400; 401; 500] /\
  In (status (updateProduct Q req w).1) [200; 400; 401; 403; 404; 500] /\
  In (status (deleteProduct Q req w).1) [200; 401; 403; 404; 500].
Proof.
  repeat split.
  - run. destruct (queries.getAllProducts Q (db w)) as [[ps|] d]; cbn; tauto.
  - run. destruct (auth_userId req) as [[|c u]|]; [cbn; tauto | | cbn; tauto].
    destruct (queries.getProductsByUserId Q (c :: u) (db w)) as [[ps|] d];
      cbn; tauto.
  - run. destruct (falsy (rawId (params_id req))); [cbn; tauto |]. step.
    destruct (queries.getProductById Q (rawId (params_id req)) (db w))
      as [[[p|]|] d]; cbn; tauto.
  - destruct (auth_userId req) as [[|c u]|] eqn:Hauth;
      [run; rewrite Hauth; cbn; tauto | | run; rewrite Hauth; cbn; tauto].
    destruct (create_body_ok (body req)) eqn:Hok.
    + rewrite (createProduct_accepted Q req w (c :: u) Hauth) by easy.
      cbv zeta.
      destruct (queries.createProduct Q _ (db w)) as [[p|] d]; cbn; tauto.
    + destruct (createProduct_refused Q req w (c :: u) Hauth) as (r & -> & Hr);
        [discriminate | assumption |].
      cbn in *. tauto.
  - destruct (auth_userId req) as [[|c u]|] eqn:Hauth;
      [run; rewrite Hauth; cbn; tauto | | run; rewrite Hauth; cbn; tauto].
    destruct (update_body_ok (body req)) eqn:Hok.
    + rewrite (updateProduct_accepted Q req w (c :: u) Hauth) by easy.
      cbv zeta.
      destruct (queries.getProductById Q _ (db w)) as [[[p|]|] d];
        [| cbn; tauto | cbn; tauto].
      case_bool_decide; [cbn; tauto |].
      destruct (queries.updateProduct Q _ _ d) as [[r|] d']; cbn; tauto.
    + destruct (updateProduct_refused Q req w (c :: u) Hauth) as (r & -> & Hr);
        [discriminate | assumption |].
      cbn in *. tauto.
  - destruct (auth_userId req) as [[|c u]|] eqn:Hauth;
      [run; rewrite Hauth; cbn; tauto | | run; rewrite Hauth; cbn; tauto].
    rewrite (deleteProduct_identified Q req w (c :: u) Hauth) by easy.
    cbv zeta.
    destruct (queries.getProductById Q _ (db w)) as [[[p|]|] d];
      [| cbn; tauto | cbn; tauto].
    case_bool_decide; [cbn; tauto |].
    destruct (queries.deleteProduct Q _ d) as [[r|] d']; cbn; tauto.
Qed.

(** ** Refused requests write nothing *)

Lemma quiet_run {DB} (Q : queries.t DB) (w : World DB) (r : Response)
    (out : Response * World DB) :
  out = (r, w) ->
  Forall (fun c => mutating c = false) (made w out.2) /\
  (lookup_reads Q -> db out.2 = db w).
Proof.
  intros ->. cbn [snd]. rewrite made_nothing.
  split; [constructor | reflexivity].
Qed.

Lemma lookup_run {DB} (Q : queries.t DB) (w : World DB) (r : Response)
    (id : option jstring) (found : option Product.t) (d : DB)
    (out : Response * World DB) :
  queries.getProductById Q id (db w) = (Returned found, d) ->
  out = (r, mkWorld d (calls w ++ [GetProductById id])) ->
  Forall (fun c => mutating c = false) (made w out.2) /\
  (lookup_reads Q -> db out.2 = db w).
Proof.
  intros Hp ->. cbn [snd db]. rewrite made_app.
  split; [repeat constructor |].
  intros Hread. eapply Hread. eassumption.
Qed.

(** When createProduct, updateProduct or deleteProduct answers with a
    client error (a status from 400 to 499), it has made no mutating
    persistence call; and where lookups only read, the database is as it
    was. *)
Theorem client_errors_write_nothing {DB} (Q : queries.t DB)
    (req : Request) (w : World DB)
    (h : Request -> World DB -> Response * World DB) :
  In h [createProduct Q; updateProduct Q; deleteProduct Q] ->
  400 <= status (h req w).1 < 500 ->
  Forall (fun c => mutating c = false) (made w (h req w).2) /\
  (lookup_reads Q -> db (h req w).2 = db w).
Proof.
  intros Hin Hst.
  destruct Hin as [<- | [<- | [<- | []]]];
    (destruct (auth_userId req) as [[|c u]|] eqn:Hauth;
     [apply (quiet_run Q w (error 401 "Unauthorized"));
      run; rewrite Hauth; reflexivity
     |
     | apply (quiet_run Q w (error 401 "Unauthorized"));
       run; rewrite Hauth; reflexivity]).
  - destruct (create_body_ok (body req)) eqn:Hok.
    + exfalso. revert Hst.
      rewrite (createProduct_accepted Q req w (c :: u) Hauth) by easy.
      cbv zeta.
      destruct (queries.createProduct Q _ (db w)) as [[p|] d]; cbn; lia.
    + destruct (createProduct_refused Q req w (c :: u) Hauth)
        as (r & Hr & _); [discriminate | assumption |].
      eapply quiet_run. eassumption.
  - destruct (update_body_ok (body req)) eqn:Hok.
    + revert Hst.
      rewrite (updateProduct_accepted Q req w (c :: u) Hauth) by easy.
      cbv zeta.
      destruct (queries.getProductById Q _ (db w)) as [[[p|]|] d] eqn:Hp;
        [| intros _; eapply lookup_run; [exact Hp | reflexivity]
         | cbn; lia].
      case_bool_decide;
        [intros _; eapply lookup_run; [exact Hp | reflexivity] |].
      destruct (queries.updateProduct Q _ _ d) as [[r|] d']; cbn; lia.
    + destruct (updateProduct_refused Q req w (c :: u) Hauth)
        as (r & Hr & _); [discriminate | assumption |].
      eapply quiet_run. eassumption.
  - revert Hst.
    rewrite (deleteProduct_identified Q req w (c :: u) Hauth) by easy.
    cbv zeta.
    destruct (queries.getProductById Q _ (db w)) as [[[p|]|] d] eqn:Hp;
      [| intros _; eapply lookup_run; [exact Hp | reflexivity]
       | cbn; lia].
    case_bool_decide;
      [intros _; eapply lookup_run; [exact Hp | reflexivity] |].
    destruct (queries.deleteProduct Q _ d) as [[r|] d']; cbn; lia.
Qed.

Lemma client_errors_write_nothing_witness :
  status (deleteProduct Mem.Q (request bob "p1" VUndefined) shop).1 = 403 /\
  made shop (deleteProduct Mem.Q (request bob "p1" VUndefined) shop).2
    = [GetProductById (Some (lit "p1"))] /\
  Forall (fun c => mutating c = false)
         (made shop (deleteProduct Mem.Q (request bob "p1" VUndefined) shop).2)
  /\
  db (deleteProduct Mem.Q (request bob "p1" VUndefined) shop).2 = db shop.
Proof.
  split; [reflexivity |]. split; [reflexivity |].
  destruct (client_errors_write_nothing Mem.Q (request bob "p1" VUndefined)
              shop (deleteProduct Mem.Q)
              ltac:(right; right; left; reflexivity)
              ltac:(split; [discriminate | reflexivity])) as [H1 H2].
  split; [exact H1 | exact (H2 Mem_lookup_reads)].
Defined.

(** ** Only the owner writes *)

(** Every mutating persistence call updateProduct or deleteProduct makes is
    the update, or the delete, of the id of the request, made after the
    lookup of that id found a Product whose [userId] is the caller's
    identity. *)
Theorem only_the_owner_writes {DB} (Q : queries.t DB)
    (req : Request) (w : World DB) (c : Call) :
  In c (made w (updateProduct Q req w).2) \/
  In c (made w (deleteProduct Q req w).2) ->
  mutating c = true ->
  let id := rawId (params_id req) in
  exists p d,
    queries.getProductById Q id (db w) = (Returned (Some p), d) /\
    auth_userId req = Some (Product.userId p) /\
    (c = UpdateProduct id (supplied (body req)) \/ c = DeleteProduct id).
Proof.
  intros Hin Hmut id.
  destruct (auth_userId req) as [[|x u]|] eqn:Hauth.
  - exfalso. revert Hin. run. rewrite Hauth. cbn [snd].
    rewrite made_nothing. cbn. tauto.
  - destruct Hin as [Hin | Hin]; revert Hin.
    + destruct (update_body_ok (body req)) eqn:Hok.
      * rewrite (updateProduct_accepted Q req w (x :: u) Hauth) by easy.
        cbv zeta. fold id.
        destruct (queries.getProductById Q id (db w)) as [[[p|]|] d];
          [| cbn [snd]; rewrite made_app; intros [<- | []]; discriminate
           | cbn [snd]; rewrite made_app; intros [<- | []]; discriminate].
        case_bool_decide as Hown;
          [cbn [snd]; rewrite made_app; intros [<- | []]; discriminate |].
        destruct (decide (Product.userId p = x :: u)) as [Hp | Hp];
          [| contradiction].
        intros Hin. exists p, d. rewrite Hp.
        split; [reflexivity |]. split; [reflexivity |].
        destruct (queries.updateProduct Q id _ d) as [[r|] d'];
          cbn [snd] in Hin; rewrite <- app_assoc, made_app in Hin;
          destruct Hin as [<- | [<- | []]]; try discriminate; auto.
      * destruct (updateProduct_refused Q req w (x :: u) Hauth)
          as (r & -> & _); [discriminate | assumption |].
        cbn [snd]. rewrite made_nothing. intros [].
    + rewrite (deleteProduct_identified Q req w (x :: u) Hauth) by easy.
      cbv zeta. fold id.
      destruct (queries.getProductById Q id (db w)) as [[[p|]|] d];
        [| cbn [snd]; rewrite made_app; intros [<- | []]; discriminate
         | cbn [snd]; rewrite made_app; intros [<- | []]; discriminate].
      case_bool_decide as Hown;
        [cbn [snd]; rewrite made_app; intros [<- | []]; discriminate |].
      destruct (decide (Product.userId p = x :: u)) as [Hp | Hp];
        [| contradiction].
      intros Hin. exists p, d. rewrite Hp.
      split; [reflexivity |]. split; [reflexivity |].
      destruct (queries.deleteProduct Q id d) as [[r|] d'];
        cbn [snd] in Hin; rewrite <- app_assoc, made_app in Hin;
        destruct Hin as [<- | [<- | []]]; try discriminate; auto.
  - exfalso. revert Hin. run. rewrite Hauth. cbn [snd].
    rewrite made_nothing. cbn. tauto.
Qed.

Lemma only_the_owner_writes_witness :
  made shop (deleteProduct Mem.Q (request alice "p1" VUndefined) shop).2
    = [GetProductById (Some (lit "p1")); DeleteProduct (Some (lit "p1"))] /\
  exists p d,
    Mem.getProductById (Some (lit "p1")) (db shop) = (Returned (Some p), d) /\
    Some alice = Some (Product.userId p).
Proof.
  split; [reflexivity |].
  destruct (only_the_owner_writes Mem.Q (request alice "p1" VUndefined) shop
              (DeleteProduct (Some (lit "p1")))
              ltac:(right; right; left; reflexivity) eq_refl)
    as (p & d & Hp & Hu & _).
  exists p, d. split; [exact Hp | exact Hu].
Defined.

(** ** Persistence failures *)

(** When a persistence call raises, the handler answers 500 with its own
    message (the error is not in the body) and makes no further call: for
    the one call of getAllProducts, getMyProducts, getProductById and
    createProduct, for the lookup of updateProduct and deleteProduct, and
    for the update or the delete that follows a lookup of the caller's own
    product. *)
Theorem persistence_failure_is_500 {DB} (Q : queries.t DB)
    (req : Request) (w : World DB) (u : jstring) :
  auth_userId req = Some u -> u <> [] ->
  let id := rawId (params_id req) in
  let data :=
    NewProduct.mk (get_prop (lit "title") (body req))
                  (get_prop (lit "description") (body req))
                  (get_prop (lit "imageUrl") (body req)) u in
  (forall d,
      queries.getAllProducts Q (db w) = (Threw, d) ->
      getAllProducts Q req w
      = (error 500 "Failed to get products",
         mkWorld d (calls w ++ [GetAllProducts]))) /\
  (forall d,
      queries.getProductsByUserId Q u (db w) = (Threw, d) ->
      getMyProducts Q req w
      = (error 500 "Failed to get user products",
         mkWorld d (calls w ++ [GetProductsByUserId u]))) /\
  (forall d,
      falsy id = false ->
      queries.getProductById Q id (db w) = (Threw, d) ->
      getProductById Q req w
      = (error 500 "Failed to get product",
         mkWorld d (calls w ++ [GetProductById id]))) /\
  (forall d,
      create_body_ok (body req) = true ->
      queries.createProduct Q data (db w) = (Threw, d) ->
      createProduct Q req w
      = (error 500 "Failed to create product",
         mkWorld d (calls w ++ [CreateProduct data]))) /\
  (forall d,
      queries.getProductById Q id (db w) = (Threw, d) ->
      deleteProduct Q req w
      = (error 500 "Failed to delete product",
         mkWorld d (calls w ++ [GetProductById id])) /\
      (update_body_ok (body req) = true ->
       updateProduct Q req w
       = (error 500 "Failed to update product",
          mkWorld d (calls w ++ [GetProductById id])))) /\
  (forall p d d',
      queries.getProductById Q id (db w) = (Returned (Some p), d) ->
      Product.userId p = u ->
      (queries.deleteProduct Q id d = (Threw, d') ->
       deleteProduct Q req w
       = (error 500 "Failed to delete product",
          mkWorld d' (calls w ++ [GetProductById id; DeleteProduct id]))) /\
      (update_body_ok (body req) = true ->
       queries.updateProduct Q id (supplied (body req)) d = (Threw, d') ->
       updateProduct Q req w
       = (error 500 "Failed to update product",
          mkWorld d' (calls w ++ [GetProductById id;
                                  UpdateProduct id (supplied (body req))])))).
Proof.
  intros Hauth Hu id data.
  pose proof (deleteProduct_identified Q req w u Hauth Hu) as Hdel.
  pose proof (updateProduct_accepted Q req w u Hauth Hu) as Hupd.
  pose proof (createProduct_accepted Q req w u Hauth Hu) as Hcre.
  cbv zeta in Hdel, Hupd, Hcre. fold id in Hdel, Hupd. fold data in Hcre.
  repeat split.
  - intros d Hd. run. rewrite Hd. reflexivity.
  - intros d Hd. run. rewrite Hauth. destruct u; [congruence |].
    rewrite Hd. reflexivity.
  - intros d Hid Hd. run. fold id. rewrite Hid. step. rewrite Hd.
    reflexivity.
  - intros d Hok Hd. rewrite (Hcre Hok), Hd. reflexivity.
  - rewrite Hdel, H. reflexivity.
  - intros Hok. rewrite (Hupd Hok), H. reflexivity.
  - intros Hd. rewrite Hdel, H, bool_decide_eq_false_2 by auto.
    rewrite Hd, <- app_assoc. reflexivity.
  - intros Hok Hd. rewrite (Hupd Hok), H, bool_decide_eq_false_2 by auto.
    rewrite Hd, <- app_assoc. reflexivity.
Qed.

Lemma persistence_failure_is_500_witness :
  let req := request alice "p1" (object [prop "title" (str "T")]) in
  getAllProducts Down.Q req Down.world
    = (error 500 "Failed to get products", mkWorld tt [GetAllProducts]) /\
  getMyProducts Down.Q req Down.world
    = (error 500 "Failed to get user products",
       mkWorld tt [GetProductsByUserId alice]) /\
  getProductById Down.Q req Down.world
    = (error 500 "Failed to get product",
       mkWorld tt [GetProductById (Some (lit "p1"))]) /\
  deleteProduct Down.Q req Down.world
    = (error 500 "Failed to delete product",
       mkWorld tt [GetProductById (Some (lit "p1"))]) /\
  updateProduct ReadOnly.Q req shop
    = (error 500 "Failed to update product",
       mkWorld (db shop)
         [GetProductById (Some (lit "p1"));
          UpdateProduct (Some (lit "p1"))
                        (Updates.mk (Some (str "T")) None None)]).
Proof.
  intros req.
  destruct (persistence_failure_is_500 Down.Q req Down.world alice
              eq_refl ltac:(discriminate)) as (H1 & H2 & H3 & _ & H5 & _).
  destruct (persistence_failure_is_500 ReadOnly.Q req shop alice
              eq_refl ltac:(discriminate)) as (_ & _ & _ & _ & _ & H6).
  split; [exact (H1 tt eq_refl) |]. split; [exact (H2 tt eq_refl) |].
  split; [exact (H3 tt eq_refl eq_refl) |].
  split; [exact (proj1 (H5 tt eq_refl)) |].
  exact (proj2 (H6 lamp (db shop) (db shop) eq_refl eq_refl) eq_refl eq_refl).
Defined.

(** ** updateProduct on the caller's own product, and on none *)

(** With the identity present and a body that passes validation: when the
    lookup finds nothing, updateProduct answers 404 "Product not found" and
    the lookup is its only call; when it finds a Product of the caller's
    and the update returns, the answer is 200 with what the update
    returned, after exactly the lookup and the update of the supplied
    fields. *)
Theorem updateProduct_found_or_404 {DB} (Q : queries.t DB)
    (req : Request) (w : World DB) (u : jstring) :
  auth_userId req = Some u -> u <> [] ->
  update_body_ok (body req) = true ->
  let id := rawId (params_id req) in
  (forall d,
      queries.getProductById Q id (db w) = (Returned None, d) ->
      updateProduct Q req w
      = (error 404 "Product not found",
         mkWorld d (calls w ++ [GetProductById id]))) /\
  (forall p d r d',
      queries.getProductById Q id (db w) = (Returned (Some p), d) ->
      Product.userId p = u ->
      queries.updateProduct Q id (supplied (body req)) d = (Returned r, d') ->
      updateProduct Q req w
      = (mkResponse 200 (product_json r),
         mkWorld d' (calls w ++ [GetProductById id;
                                 UpdateProduct id (supplied (body req))]))).
Proof.
  intros Hauth Hu Hok id.
  rewrite (updateProduct_accepted Q req w u Hauth Hu Hok). cbv zeta. fold id.
  split.
  - intros d Hd. rewrite Hd. reflexivity.
  - intros p d r d' Hp Hown Hr.
    rewrite Hp, bool_decide_eq_false_2 by auto.
    rewrite Hr, <- app_assoc. reflexivity.
Qed.

Lemma updateProduct_found_or_404_witness :
  updateProduct Mem.Q
    (request alice "abc123" (object [prop "title" (str "T")])) shop
    = (error 404 "Product not found",
       mkWorld (db shop) [GetProductById (Some (lit "abc123"))]) /\
  status (updateProduct Mem.Q
            (request alice "p1" (object [prop "title" (str "T")])) shop).1
    = 200.
Proof.
  split.
  - apply (updateProduct_found_or_404 Mem.Q
             (request alice "abc123" (object [prop "title" (str "T")]))
             shop alice eq_refl ltac:(discriminate) eq_refl).
    reflexivity.
  - destruct (updateProduct_found_or_404 Mem.Q
                (request alice "p1" (object [prop "title" (str "T")]))
                shop alice eq_refl ltac:(discriminate) eq_refl) as [_ H].
    rewrite (H lamp (db shop) _ _ eq_refl eq_refl eq_refl). reflexivity.
Defined.

(** ** A deleted product is gone *)

(** When the owner deletes a product (the lookup finds the caller's own
    Product and the delete returns), deleteProduct answers 200 "Product
    deleted successfully" after exactly the lookup and the delete; and a
    getProductById of the same id that follows is answered 404. *)
Theorem deleted_product_is_gone {DB} (Q : queries.t DB)
    (req : Request) (w : World DB) (u : jstring)
    (p : Product.t) (d : DB) (r : option Product.t) (d' : DB) :
  delete_removes Q ->
  auth_userId req = Some u -> u <> [] ->
  let id := rawId (params_id req) in
  falsy id = false ->
  queries.getProductById Q id (db w) = (Returned (Some p), d) ->
  Product.userId p = u ->
  queries.deleteProduct Q id d = (Returned r, d') ->
  deleteProduct Q req w
    = (mkResponse 200 (MessageBody "Product deleted successfully"),
       mkWorld d' (calls w ++ [GetProductById id; DeleteProduct id])) /\
  (getProductById Q req (deleteProduct Q req w).2).1
    = error 404 "Product not found".
Proof.
  intros Hrem Hauth Hu id Hid Hp Hown Hdel.
  assert (E : deleteProduct Q req w
              = (mkResponse 200 (MessageBody "Product deleted successfully"),
                 mkWorld d' (calls w ++ [GetProductById id; DeleteProduct id]))).
  { rewrite (deleteProduct_identified Q req w u Hauth Hu). cbv zeta. fold id.
    rewrite Hp, bool_decide_eq_false_2 by auto.
    rewrite Hdel, <- app_assoc. reflexivity. }
  split; [exact E |].
  rewrite E. apply Hrem in Hdel.
  run. fold id. rewrite Hid. step. rewrite Hdel. reflexivity.
Qed.

Lemma deleted_product_is_gone_witness :
  let req := request alice "p1" VUndefined in
  (getProductById Mem.Q req shop).1 = mkResponse 200 (ProductBody lamp) /\
  (deleteProduct Mem.Q req shop).1
    = mkResponse 200 (MessageBody "Product deleted successfully") /\
  (getProductById Mem.Q req (deleteProduct Mem.Q req shop).2).1
    = error 404 "Product not found".
Proof.
  intros req. split; [reflexivity |]. split; [reflexivity |].
  apply (deleted_product_is_gone Mem.Q req shop alice lamp (db shop)
           (Some lamp) (delete (lit "p1") (db shop))
           Mem_delete_removes eq_refl ltac:(discriminate)
           eq_refl eq_refl eq_refl eq_refl).
Defined.

(** ** What updateProduct and deleteProduct read of a request *)

(** updateProduct reads its body only through [title], [description] and
    [imageUrl]: setting any other property ([id], [userId], ...) to any
    value changes neither the answer nor the calls; deleteProduct does not
    read the body at all. *)
Theorem update_and_delete_read_no_other_field {DB} (Q : queries.t DB)
    (req : Request) (w : World DB) (k : jstring) (x : jsval) :
  k <> lit "title" -> k <> lit "description" -> k <> lit "imageUrl" ->
  updateProduct Q (with_body (set_prop k x (body req)) req) w
    = updateProduct Q req w /\
  (forall b, deleteProduct Q (with_body b req) w = deleteProduct Q req w).
Proof.
  intros Ht Hd Hi. split; [| reflexivity].
  run. rewrite nullish_set_prop, !get_prop_set_prop_ne by assumption.
  reflexivity.
Qed.

Lemma update_and_delete_read_no_other_field_witness :
  let b := object [prop "title" (str "Mine")] in
  updateProduct Mem.Q
    (request bob "p1" (set_prop (lit "userId") (str "user_alice") b)) shop
    = updateProduct Mem.Q (request bob "p1" b) shop /\
  (updateProduct Mem.Q
     (request bob "p1" (set_prop (lit "userId") (str "user_alice") b)) shop).1
    = error 403 "You can only update your own products".
Proof.
  intros b. split; [| reflexivity].
  apply (update_and_delete_read_no_other_field Mem.Q (request bob "p1" b)
           shop (lit "userId") (str "user_alice")
           ltac:(discriminate) ltac:(discriminate) ltac:(discriminate)).
Defined.

(** When the id of the request is a sequence, updateProduct and
    deleteProduct run as on its first element alone, and as with no id when
    the sequence is empty. *)
Lemma update_and_delete_use_first_id {DB} (Q : queries.t DB)
    (req : Request) (w : World DB) (s : jstring) (rest : list jstring) :
  updateProduct Q (with_id (PArray (s :: rest)) req) w
    = updateProduct Q (with_id (PString s) req) w /\
  deleteProduct Q (with_id (PArray (s :: rest)) req) w
    = deleteProduct Q (with_id (PString s) req) w /\
  updateProduct Q (with_id (PArray []) req) w
    = updateProduct Q (with_id PAbsent req) w /\
  deleteProduct Q (with_id (PArray []) req) w
    = deleteProduct Q (with_id PAbsent req) w.
Proof. repeat split; reflexivity. Qed.

(** ** isNonEmptyString *)

Lemma forallb_white_space (s : jstring) :
  forallb is_white_space s = false <->
  exists c, In c s /\ is_white_space c = false.
Proof.
  induction s as [|x s IH]; cbn.
  - split; [discriminate | intros (c & [] & _)].
  - destruct (is_white_space x) eqn:Hx; cbn.
    + rewrite IH. split.
      * intros (c & Hin & Hc). exists c. auto.
      * intros (c & [-> | Hin] & Hc); [congruence |]. exists c. auto.
    + split; [| reflexivity]. intros _. exists x. auto.
Qed.

(** isNonEmptyString accepts exactly the strings that hold a code unit
    that is not white space: it refuses what is not a string (undefined,
    null, booleans, numbers, arrays, objects), the empty string and strings
    of white space only; what stands before or after the code unit does not
    matter. *)
Theorem isNonEmptyString_decides (v : jsval) :
  isNonEmptyString v =
  match v with
  | VString s => negb (forallb is_white_space s)
  | _ => false
  end.
Proof.
  destruct v as [| | | |s| |]; try reflexivity.
  destruct (forallb is_white_space s) eqn:Hs; cbn [negb].
  - destruct (isNonEmptyString (VString s)) eqn:Hv; [| reflexivity].
    apply isNonEmptyString_spec in Hv as (s' & c & Hs' & Hin & Hc).
    injection Hs' as <-.
    assert (Hf : forallb is_white_space s = false)
      by (apply forallb_white_space; eauto).
    congruence.
  - apply isNonEmptyString_spec.
    apply forallb_white_space in Hs as (c & Hin & Hc). eauto.
Qed.

(** ** The calls of a handler *)

(** A handler only adds to the log of persistence calls, and adds little:
    at most one call for getAllProducts, getMyProducts, getProductById and
    createProduct, at most two for updateProduct and deleteProduct.  No
    call is made twice; nothing is retried. *)
Theorem handlers_make_few_calls {DB} (Q : queries.t DB)
    (req : Request) (w : World DB) :
  (forall h,
      In h [getAllProducts Q; getMyProducts Q; getProductById Q;
            createProduct Q] ->
      calls (h req w).2 = calls w ++ made w (h req w).2 /\
      (length (made w (h req w).2) <= 1)%nat) /\
  (forall h,
      In h [updateProduct Q; deleteProduct Q] ->
      calls (h req w).2 = calls w ++ made w (h req w).2 /\
      (length (made w (h req w).2) <= 2)%nat /\
      NoDup (made w (h req w).2)).
Proof.
  assert (Hnone : forall (out : Response * World DB) r,
             out = (r, w) ->
             calls out.2 = calls w ++ made w out.2 /\
             length (made w out.2) = 0%nat).
  { intros out r ->. cbn [snd]. rewrite made_nothing, app_nil_r. auto. }
  assert (Hsome : forall (out : Response * World DB) r d l,
             out = (r, mkWorld d (calls w ++ l)) ->
             calls out.2 = calls w ++ made w out.2 /\
             length (made w out.2) = length l /\ made w out.2 = l).
  { intros out r d l ->. cbn [snd]. rewrite made_app. auto. }
  split.
  - intros h [<- | [<- | [<- | [<- | []]]]].
    + run. destruct (queries.getAllProducts Q (db w)) as [[ps|] d];
        (edestruct Hsome as (-> & -> & _); [reflexivity |]); cbn; auto.
    + run. destruct (auth_userId req) as [[|c u]|];
        [edestruct Hnone as (-> & ->); [reflexivity |]; auto | |
         edestruct Hnone as (-> & ->); [reflexivity |]; auto].
      destruct (queries.getProductsByUserId Q (c :: u) (db w)) as [[ps|] d];
        (edestruct Hsome as (-> & -> & _); [reflexivity |]); cbn; auto.
    + run. destruct (falsy (rawId (params_id req)));
        [edestruct Hnone as (-> & ->); [reflexivity |]; auto |].
      step.
      destruct (queries.getProductById Q (rawId (params_id req)) (db w))
        as [[[p|]|] d];
        (edestruct Hsome as (-> & -> & _); [reflexivity |]); cbn; auto.
    + destruct (auth_userId req) as [[|c u]|] eqn:Hauth;
        [run; rewrite Hauth;
         edestruct Hnone as (-> & ->); [reflexivity |]; auto | |
         run; rewrite Hauth;
         edestruct Hnone as (-> & ->); [reflexivity |]; auto].
      destruct (create_body_ok (body req)) eqn:Hok.
      * rewrite (createProduct_accepted Q req w (c :: u) Hauth) by easy.
        cbv zeta.
        destruct (queries.createProduct Q _ (db w)) as [[p|] d];
          (edestruct Hsome as (-> & -> & _); [reflexivity |]); cbn; auto.
      * destruct (createProduct_refused Q req w (c :: u) Hauth)
          as (r & Hr & _); [discriminate | assumption |].
        destruct (Hnone _ _ Hr) as (-> & ->). auto.
  - assert (Hdup : forall id a b,
               mutating a = false -> mutating b = true ->
               a = GetProductById id -> NoDup [a; b]).
    { intros id a b Ha Hb ->. apply NoDup_cons. split.
      - intros Hin. apply list_elem_of_singleton in Hin. subst b. discriminate.
      - apply NoDup_singleton. }
    intros h [<- | [<- | []]];
      (destruct (auth_userId req) as [[|c u]|] eqn:Hauth;
       [run; rewrite Hauth;
        edestruct Hnone as (-> & E); [reflexivity |];
        rewrite E; apply nil_length_inv in E; rewrite E;
        repeat split; auto; constructor
       |
       | run; rewrite Hauth;
         edestruct Hnone as (-> & E); [reflexivity |];
         rewrite E; apply nil_length_inv in E; rewrite E;
         repeat split; auto; constructor]).
    + destruct (update_body_ok (body req)) eqn:Hok.
      * rewrite (updateProduct_accepted Q req w (c :: u) Hauth) by easy.
        cbv zeta.
        destruct (queries.getProductById Q _ (db w)) as [[[p|]|] d];
          [| edestruct Hsome as (-> & -> & ->); [reflexivity |];
             repeat split; cbn; auto; apply NoDup_singleton
           | edestruct Hsome as (-> & -> & ->); [reflexivity |];
             repeat split; cbn; auto; apply NoDup_singleton].
        case_bool_decide;
          [edestruct Hsome as (-> & -> & ->); [reflexivity |];
           repeat split; cbn; auto; apply NoDup_singleton |].
        destruct (queries.updateProduct Q _ _ d) as [[r|] d'];
          rewrite <- app_assoc;
          (edestruct Hsome as (-> & -> & ->); [reflexivity |]);
          (repeat split; cbn; auto; eapply Hdup; reflexivity).
      * destruct (updateProduct_refused Q req w (c :: u) Hauth)
          as (r & Hr & _); [discriminate | assumption |].
        destruct (Hnone _ _ Hr) as (-> & E).
        rewrite E; apply nil_length_inv in E; rewrite E.
        repeat split; auto; constructor.
    + rewrite (deleteProduct_identified Q req w (c :: u) Hauth) by easy.
      cbv zeta.
      destruct (queries.getProductById Q _ (db w)) as [[[p|]|] d];
        [| edestruct Hsome as (-> & -> & ->); [reflexivity |];
           repeat split; cbn; auto; apply NoDup_singleton
         | edestruct Hsome as (-> & -> & ->); [reflexivity |];
           repeat split; cbn; auto; apply NoDup_singleton].
      case_bool_decide;
        [edestruct Hsome as (-> & -> & ->); [reflexivity |];
         repeat split; cbn; auto; apply NoDup_singleton |].
      destruct (queries.deleteProduct Q _ d) as [[r|] d'];
        rewrite <- app_assoc;
        (edestruct Hsome as (-> & -> & ->); [reflexivity |]);
        (repeat split; cbn; auto; eapply Hdup; reflexivity).
Qed.

(** ** trim *)

Lemma trimStart_split (s : jstring) :
  exists pre,
    s = pre ++ trimStart s /\ Forall (fun c => is_white_space c = true) pre.
Proof.
  induction s as [|x s (pre & Hs & Hpre)]; cbn.
  - exists []. split; [reflexivity | constructor].
  - destruct (is_white_space x) eqn:Hx.
    + exists (x :: pre). split; [cbn; congruence | constructor; assumption].
    + exists []. split; [reflexivity | constructor].
Qed.

Lemma trimEnd_split (s : jstring) :
  exists post,
    s = trimEnd s ++ post /\ Forall (fun c => is_white_space c = true) post.
Proof.
  destruct (trimStart_split (rev s)) as (pre & Hs & Hpre).
  exists (rev pre). split.
  - unfold trimEnd. rewrite <- rev_app_distr, <- Hs, rev_involutive.
    reflexivity.
  - apply Forall_rev. assumption.
Qed.

(** [trim] takes white space off both ends and nothing else: the string is
    its trimmed part between two runs of white space, and the trimmed part
    neither starts nor ends with white space. *)
Theorem trim_strips_white_space (s : jstring) :
  exists pre post,
    s = pre ++ trim s ++ post /\
    Forall (fun c => is_white_space c = true) pre /\
    Forall (fun c => is_white_space c = true) post /\
    (forall c r, trim s = c :: r -> is_white_space c = false) /\
    (forall c r, trim s = r ++ [c] -> is_white_space c = false).
Proof.
  destruct (trimStart_split s) as (pre & Hs & Hpre).
  destruct (trimEnd_split (trimStart s)) as (post & Ht & Hpost).
  exists pre, post. fold (trim s) in Ht.
  split; [rewrite <- Ht; exact Hs |].
  split; [assumption |]. split; [assumption |]. split.
  - intros c r Hc. rewrite Hc in Ht. cbn in Ht.
    eapply trimStart_head. eassumption.
  - intros c r Hc. unfold trim, trimEnd in Hc.
    apply (f_equal (@rev N)) in Hc.
    rewrite rev_involutive, rev_app_distr in Hc. cbn in Hc.
    eapply trimStart_head. eassumption.
Qed.
